(** * Japanese car VIN decoder: search routing, engine codes and parts lookup

    A shallow embedding of the decision logic of
    [engine_search_enhanced.py], [enhanced_vin_decoder.py] and the Flask
    front end [enhanced_web_with_engine_search.py], with the properties the
    specification states about them.

    Conventions.
    - Python [str] values are Rocq strings, read as ASCII text (VINs, engine
      codes, dictionary keys).  [str.strip], [str.upper], [\d] and [[A-Z]]
      are Python's on that range.
    - A Python [dict] is an association list in insertion order, which is
      the order Python iterates it in.
    - The tables built in [__init__] are the state of the decoder object;
      methods that read them run in a state monad over that object, so a
      write to a table would show in the final state.
    - The two outbound HTTP calls of the VIN path are parameters. *)

From Stdlib Require Import String Ascii List Bool Arith Lia.
From ExtLib Require Import Structures.Monad Structures.MonadState.
From ExtLib Require Import Data.Monads.StateMonad.
Import ListNotations.
Import MonadNotation.
Local Open Scope monad_scope.
Local Open Scope string_scope.

(** ** Python strings *)

Module PyStr.

(** [c.isspace()] on ASCII: TAB, LF, VT, FF, CR, FS, GS, RS, US and space. *)
Definition is_space (c : ascii) : bool :=
  let n := nat_of_ascii c in
  (Nat.leb 9 n && Nat.leb n 13) || (Nat.leb 28 n && Nat.leb n 32).

Definition is_lower (c : ascii) : bool :=
  let n := nat_of_ascii c in Nat.leb 97 n && Nat.leb n 122.

Definition upper_char (c : ascii) : ascii :=
  if is_lower c then ascii_of_nat (nat_of_ascii c - 32) else c.

(** [s.upper()] *)
Fixpoint upper (s : string) : string :=
  match s with
  | EmptyString => EmptyString
  | String c s' => String (upper_char c) (upper s')
  end.

Fixpoint lstrip (s : string) : string :=
  match s with
  | EmptyString => EmptyString
  | String c s' => if is_space c then lstrip s' else s
  end.

Fixpoint rstrip (s : string) : string :=
  match s with
  | EmptyString => EmptyString
  | String c s' =>
      match rstrip s' with
      | EmptyString => if is_space c then EmptyString else String c EmptyString
      | r => String c r
      end
  end.

(** [s.strip()] *)
Definition strip (s : string) : string := rstrip (lstrip s).

(** [len(s)] *)
Definition len (s : string) : nat := String.length s.

(** [sub in s] *)
Fixpoint contains (sub s : string) : bool :=
  prefix sub s ||
  match s with
  | EmptyString => false
  | String _ s' => contains sub s'
  end.

(** [not s]: the empty string is falsy. *)
Definition falsy (s : string) : bool :=
  match s with EmptyString => true | _ => false end.

End PyStr.

(** ** Python dictionaries *)

Module Dict.

Definition t (V : Type) : Type := list (string * V).

(** [d.get(k)] *)
Fixpoint get {V} (k : string) (d : t V) : option V :=
  match d with
  | [] => None
  | (k', v) :: d' => if String.eqb k k' then Some v else get k d'
  end.

(** [d.get(k, default)] *)
Definition get_or {V} (k : string) (default : V) (d : t V) : V :=
  match get k d with Some v => v | None => default end.

(** [k in d] *)
Definition mem {V} (k : string) (d : t V) : bool :=
  match get k d with Some _ => true | None => false end.

(** [list(d.keys())] *)
Definition keys {V} (d : t V) : list string := map fst d.

(** [d.values()] *)
Definition values {V} (d : t V) : list V := map snd d.

(** [not d]: the empty dictionary is falsy. *)
Definition falsy {V} (d : t V) : bool :=
  match d with [] => true | _ => false end.

End Dict.

(** ** The fragment of Python's [re] the patterns use *)

Module Re.

(** Character classes: a literal, [\d], or a bracket of ranges (a single
    character [c] in a bracket is the range [c-c]). *)
Inductive cclass : Type :=
| Chr (c : ascii)
| Digit
| Bracket (ranges : list (ascii * ascii)).

Definition in_range (lo hi c : ascii) : bool :=
  Nat.leb (nat_of_ascii lo) (nat_of_ascii c) &&
  Nat.leb (nat_of_ascii c) (nat_of_ascii hi).

Definition class_mem (k : cclass) (c : ascii) : bool :=
  match k with
  | Chr a => Ascii.eqb a c
  | Digit => in_range "0" "9" c
  | Bracket ranges => existsb (fun r => in_range (fst r) (snd r) c) ranges
  end.

(** Pattern items: one character, [x?] (greedy), [x{n}], [^] and [$]. *)
Inductive item : Type :=
| One (k : cclass)
| Opt (k : cclass)
| Rep (n : nat) (k : cclass)
| Bol
| Eol.

Definition regex : Type := list item.

(** Exactly [n] characters of class [k] at the head of [s]: the text taken
    and the rest. *)
Fixpoint take_class (n : nat) (k : cclass) (s : string) : option (string * string) :=
  match n with
  | O => Some (EmptyString, s)
  | S n' =>
      match s with
      | EmptyString => None
      | String c s' =>
          if class_mem k c then
            match take_class n' k s' with
            | Some (m, r) => Some (String c m, r)
            | None => None
            end
          else None
      end
  end.

(** [$] without MULTILINE: at the end, or before a final newline. *)
Definition at_eol (s : string) : bool :=
  match s with
  | EmptyString => true
  | String c EmptyString => Ascii.eqb c "010"
  | _ => false
  end.

(** Match [p] at the head of [s]; [bos] says whether that is the start of
    the subject.  The result is the matched text. *)
Fixpoint match_here (p : regex) (bos : bool) (s : string) : option string :=
  match p with
  | [] => Some EmptyString
  | One k :: p' =>
      match s with
      | String c s' =>
          if class_mem k c
          then option_map (String c) (match_here p' false s')
          else None
      | EmptyString => None
      end
  | Opt k :: p' =>
      match s with
      | String c s' =>
          if class_mem k c then
            match match_here p' false s' with
            | Some m => Some (String c m)
            | None => match_here p' bos s
            end
          else match_here p' bos s
      | EmptyString => match_here p' bos s
      end
  | Rep n k :: p' =>
      match take_class n k s with
      | Some (m, r) =>
          option_map (append m)
            (match_here p' (bos && Nat.eqb n 0) r)
      | None => None
      end
  | Bol :: p' => if bos then match_here p' bos s else None
  | Eol :: p' => if at_eol s then match_here p' bos s else None
  end.

(** [re.match(p, s)] *)
Definition re_match (p : regex) (s : string) : option string :=
  match_here p true s.

Fixpoint search_from (p : regex) (bos : bool) (s : string) : option string :=
  match match_here p bos s with
  | Some m => Some m
  | None =>
      match s with
      | EmptyString => None
      | String _ s' => search_from p false s'
      end
  end.

(** [re.search(p, s)]: the leftmost match. *)
Definition re_search (p : regex) (s : string) : option string :=
  search_from p true s.

End Re.

(** ** Calls that may raise *)

(** The result of a call that either returns or raises an exception (its
    message). *)
Inductive outcome (A : Type) : Type :=
| Returned (a : A)
| Raised (e : string).
Arguments Returned {A} a.
Arguments Raised {A} e.

(** The double quote character, for the inch marks of the tables. *)
Definition dq : string := String (ascii_of_nat 34) EmptyString.

(** ** enhanced_vin_decoder.py *)

Module PartInformation.

(** [@dataclass class PartInformation]; the two fields that default to
    [None] are options. *)
Record t : Type := {
  part_name : string;
  part_number : string;
  brand : string;
  price_range : string;
  compatibility_notes : string;
  specifications : option (Dict.t string);
  alternatives : option (list string);
  maintenance_interval : string
}.

End PartInformation.

(** What [get_enhanced_parts] returns: the year entry of the table
    (category -> part key -> part), or the fallback (category -> list of
    parts). *)
Inductive parts_catalog : Type :=
| Detailed (d : Dict.t (Dict.t PartInformation.t))
| Basic (d : Dict.t (list PartInformation.t)).

Module EnhancedVehicleInfo.

(** [@dataclass class EnhancedVehicleInfo], without the fields filled from
    the specification, maintenance, feature and bulletin tables. *)
Record t : Type := {
  vin : string;
  make : string;
  model : string;
  year : string;
  engine : string;
  transmission : string;
  drive_type : string;
  body_style : string;
  trim : string;
  fuel_type : string;
  doors : string;
  seats : string;
  parts_compatibility : parts_catalog;
  recalls : list (Dict.t string);
  engine_code : string;
  transmission_code : string
}.

End EnhancedVehicleInfo.

(** The NHTSA service as the decoder sees it: each method issues one GET,
    and either returns (the empty value when the request failed) or lets
    an exception through. *)
Record nhtsa_service : Type := {
  decode_vin_nhtsa : string -> outcome (Dict.t string);
  get_recalls : string -> outcome (list (Dict.t string))
}.

Module EnhancedJapaneseCarVINDecoder.

Import PartInformation.

(** The instance attributes. *)
Record t : Type := {
  nhtsa_base_url : string;
  japanese_manufacturers : list string;
  enhanced_parts_database :
    Dict.t (Dict.t (Dict.t (Dict.t (Dict.t PartInformation.t))))
}.

Definition __init__ : t :=
  {| nhtsa_base_url := "https://vpic.nhtsa.dot.gov/api";
     japanese_manufacturers :=
       ["TOYOTA"; "HONDA"; "NISSAN"; "MAZDA"; "MITSUBISHI"; "SUBARU";
        "SUZUKI"; "ISUZU"; "DAIHATSU"; "LEXUS"; "ACURA"; "INFINITI";
        "SCION"; "DATSUN"];
     enhanced_parts_database :=
       [ ("TOYOTA",
          [ ("CAMRY",
             [ ("2005",
                [ ("engine_parts",
                   [ ("air_filter",
                      {| part_name := "Air Filter";
                         part_number := "17801-0P010";
                         brand := "Toyota OEM";
                         price_range := "$15-25";
                         compatibility_notes :=
                           "Fits 2005 Camry with 1ZZ-FE engine";
                         specifications :=
                           Some [ ("filter_type", "Paper");
                                  ("dimensions", ("8.5" ++ dq ++ " x 7.5" ++ dq ++ " x 1.5" ++ dq)) ];
                         alternatives :=
                           Some [ "Fram CA10123";
                                  "K&N 33-2304";
                                  "Mann C 25 111" ];
                         maintenance_interval := "Every 15,000 miles" |});
                     ("oil_filter",
                      {| part_name := "Oil Filter";
                         part_number := "90915-YZZJ1";
                         brand := "Toyota OEM";
                         price_range := "$8-15";
                         compatibility_notes := "Fits 2005 Camry 1ZZ-FE engine";
                         specifications :=
                           Some [ ("filter_type", "Spin-on");
                                  ("thread_size", "3/4-16") ];
                         alternatives :=
                           Some [ "Fram PH4967";
                                  "Mobil 1 M1-104";
                                  "K&N HP-1004" ];
                         maintenance_interval := "Every 5,000 miles" |});
                     ("spark_plugs",
                      {| part_name := "Spark Plugs";
                         part_number := "90919-01237";
                         brand := "Toyota OEM";
                         price_range := "$8-12 each";
                         compatibility_notes :=
                           "Iridium spark plugs for 1ZZ-FE engine";
                         specifications :=
                           Some [ ("gap", ("0.044" ++ dq));
                                  ("heat_range", "5");
                                  ("thread_size", "14mm") ];
                         alternatives :=
                           Some ["NGK IFR5T11"; "Denso IKH16"; "Bosch 4418"];
                         maintenance_interval := "Every 60,000 miles" |});
                     ("timing_belt",
                      {| part_name := "Timing Belt Kit";
                         part_number := "13568-0F010";
                         brand := "Toyota OEM";
                         price_range := "$150-250";
                         compatibility_notes :=
                           "Complete timing belt kit with tensioner and water pump";
                         specifications :=
                           Some [ ("belt_length", "95 teeth");
                                  ("width", "25mm") ];
                         alternatives :=
                           Some [ "Gates TCKWP328";
                                  "Aisin TKT-021";
                                  "Continental 56098" ];
                         maintenance_interval := "Every 90,000 miles" |}) ]);
                  ("brake_parts",
                   [ ("brake_pads_front",
                      {| part_name := "Front Brake Pads";
                         part_number := "04465-0F010";
                         brand := "Toyota OEM";
                         price_range := "$45-80";
                         compatibility_notes :=
                           "Ceramic brake pads for front wheels";
                         specifications :=
                           Some [ ("pad_type", "Ceramic");
                                  ("thickness", "12mm") ];
                         alternatives :=
                           Some [ "Akebono ACT1234";
                                  "Wagner ThermoQuiet QC1234";
                                  "RayBestos SGD1234" ];
                         maintenance_interval := "Every 30,000-50,000 miles" |});
                     ("brake_rotors_front",
                      {| part_name := "Front Brake Rotors";
                         part_number := "43512-0F010";
                         brand := "Toyota OEM";
                         price_range := "$80-150 each";
                         compatibility_notes := "Vented rotors for front wheels";
                         specifications :=
                           Some [("diameter", "296mm"); ("thickness", "28mm")];
                         alternatives :=
                           Some [ "Centric 120.34001";
                                  "RayBestos 980123";
                                  "Wagner BD1234" ];
                         maintenance_interval := "Every 60,000-80,000 miles" |}) ]);
                  ("suspension_parts",
                   [ ("shock_absorbers_front",
                      {| part_name := "Front Shock Absorbers";
                         part_number := "48510-0F010";
                         brand := "Toyota OEM";
                         price_range := "$120-200 each";
                         compatibility_notes := "Gas-charged shock absorbers";
                         specifications :=
                           Some [("type", "Gas-charged"); ("travel", "150mm")];
                         alternatives :=
                           Some ["KYB 334123"; "Monroe 1234"; "Gabriel 1234"];
                         maintenance_interval := "Every 80,000-100,000 miles" |}) ]) ]) ]) ]);
         ("HONDA",
          [ ("CIVIC",
             [ ("2005",
                [ ("engine_parts",
                   [ ("air_filter",
                      {| part_name := "Air Filter";
                         part_number := "17220-P2A-000";
                         brand := "Honda OEM";
                         price_range := "$12-20";
                         compatibility_notes :=
                           "Fits 2005 Civic with D17A2 engine";
                         specifications :=
                           Some [ ("filter_type", "Paper");
                                  ("dimensions", ("8" ++ dq ++ " x 7" ++ dq ++ " x 1.25" ++ dq)) ];
                         alternatives := Some ["Fram CA10123"; "K&N 33-2304"];
                         maintenance_interval := "Every 15,000 miles" |}) ]) ]) ]) ]) ] |}.

(** [vin_pattern = r'^[A-HJ-NPR-Z0-9]{17}$'] *)
Definition vin_class : Re.cclass :=
  Re.Bracket [("A", "H"); ("J", "N"); ("P", "P"); ("R", "Z"); ("0", "9")]%char.

Definition vin_pattern : Re.regex := [Re.Bol; Re.Rep 17 vin_class; Re.Eol].

Definition validate_vin (vin : string) : bool :=
  if PyStr.falsy vin || negb (Nat.eqb (PyStr.len vin) 17) then false
  else
    let invalid_chars := ["I"; "O"; "Q"] in
    if existsb (fun char => PyStr.contains char vin) invalid_chars then false
    else
      match Re.re_match vin_pattern vin with
      | None => false
      | Some _ => true
      end.

Definition get_basic_parts_fallback (make model year engine : string)
  : Dict.t (list PartInformation.t) :=
  let basic_parts :=
    [ ("engine",
       [ {| part_name := "Air Filter";
            part_number := "Generic";
            brand := "Various";
            price_range := "$10-30";
            compatibility_notes :=
              ("Fits " ++ year ++ " " ++ make ++ " " ++ model);
            specifications := None;
            alternatives := None;
            maintenance_interval := "Every 15,000 miles" |};
         {| part_name := "Oil Filter";
            part_number := "Generic";
            brand := "Various";
            price_range := "$5-20";
            compatibility_notes :=
              ("Fits " ++ year ++ " " ++ make ++ " " ++ model);
            specifications := None;
            alternatives := None;
            maintenance_interval := "Every 5,000 miles" |};
         {| part_name := "Spark Plugs";
            part_number := "Generic";
            brand := "Various";
            price_range := "$5-15 each";
            compatibility_notes :=
              ("Fits " ++ year ++ " " ++ make ++ " " ++ model);
            specifications := None;
            alternatives := None;
            maintenance_interval := "Every 60,000 miles" |} ]);
      ("brakes",
       [ {| part_name := "Brake Pads";
            part_number := "Generic";
            brand := "Various";
            price_range := "$30-100";
            compatibility_notes :=
              ("Fits " ++ year ++ " " ++ make ++ " " ++ model);
            specifications := None;
            alternatives := None;
            maintenance_interval := "Every 30,000-50,000 miles" |};
         {| part_name := "Brake Rotors";
            part_number := "Generic";
            brand := "Various";
            price_range := "$50-150 each";
            compatibility_notes :=
              ("Fits " ++ year ++ " " ++ make ++ " " ++ model);
            specifications := None;
            alternatives := None;
            maintenance_interval := "Every 60,000-80,000 miles" |} ]) ] in
  basic_parts.

Definition get_enhanced_parts (make model year engine : string)
  : state t parts_catalog :=
  db <- gets enhanced_parts_database ;;
  let parts_data :=
    Dict.get_or year []
      (Dict.get_or (PyStr.upper model) []
         (Dict.get_or (PyStr.upper make) [] db)) in
  if Dict.falsy parts_data
  then ret (Basic (get_basic_parts_fallback make model year engine))
  else ret (Detailed parts_data).

Section Decode.

Variable nhtsa : nhtsa_service.

(** [decode_vin], up to the fields of the result that are kept.  The
    calls left out (maintenance schedule, specifications, common issues,
    features, service bulletins) look up tables or build lists and cannot
    raise; the test on [japanese_manufacturers] only logs a warning. *)
Definition decode_vin (vin : string)
  : state t (outcome (option EnhancedVehicleInfo.t)) :=
  if negb (validate_vin vin) then ret (Returned None)
  else
    match decode_vin_nhtsa nhtsa vin with
    | Raised e => ret (Raised e)
    | Returned decoded_data =>
        if Dict.falsy decoded_data then ret (Returned None)
        else
          let make := Dict.get_or "Make" "" decoded_data in
          let model := Dict.get_or "Model" "" decoded_data in
          let year := Dict.get_or "Model Year" "" decoded_data in
          let engine := Dict.get_or "Engine Model" "" decoded_data in
          let engine_code := Dict.get_or "Engine Configuration" "" decoded_data in
          enhanced_parts <- get_enhanced_parts make model year engine ;;
          match get_recalls nhtsa vin with
          | Raised e => ret (Raised e)
          | Returned recalls =>
              ret (Returned (Some
                {| EnhancedVehicleInfo.vin := vin;
                   EnhancedVehicleInfo.make := make;
                   EnhancedVehicleInfo.model := model;
                   EnhancedVehicleInfo.year := year;
                   EnhancedVehicleInfo.engine := engine;
                   EnhancedVehicleInfo.engine_code := engine_code;
                   EnhancedVehicleInfo.transmission :=
                     Dict.get_or "Transmission Style" "" decoded_data;
                   EnhancedVehicleInfo.transmission_code :=
                     Dict.get_or "Transmission" "" decoded_data;
                   EnhancedVehicleInfo.drive_type :=
                     Dict.get_or "Drive Type" "" decoded_data;
                   EnhancedVehicleInfo.body_style :=
                     Dict.get_or "Body Class" "" decoded_data;
                   EnhancedVehicleInfo.trim := Dict.get_or "Trim" "" decoded_data;
                   EnhancedVehicleInfo.fuel_type :=
                     Dict.get_or "Fuel Type - Primary" "" decoded_data;
                   EnhancedVehicleInfo.doors := Dict.get_or "Doors" "" decoded_data;
                   EnhancedVehicleInfo.seats :=
                     Dict.get_or "Number of Seats" "" decoded_data;
                   EnhancedVehicleInfo.parts_compatibility := enhanced_parts;
                   EnhancedVehicleInfo.recalls := recalls |}))
          end
    end.

End Decode.

End EnhancedJapaneseCarVINDecoder.

(** ** engine_search_enhanced.py *)

Module EngineInfo.

(** [@dataclass class EngineInfo] *)
Record t : Type := {
  engine_code : string;
  displacement : string;
  type_ : string;
  fuel_system : string;
  valves_per_cylinder : nat;
  compression_ratio : string;
  max_power : string;
  max_torque : string;
  fuel_type : string;
  common_vehicles : list (Dict.t string)
}.

End EngineInfo.

(** The dictionary under the key ['engine_info'] of an engine search. *)
Record engine_info_dict : Type := {
  ei_displacement : string;
  ei_type : string;
  ei_fuel_system : string;
  ei_valves_per_cylinder : nat;
  ei_compression_ratio : string;
  ei_max_power : string;
  ei_max_torque : string;
  ei_fuel_type : string;
  ei_common_vehicles : list (Dict.t string)
}.

(** The dictionary [search_by_engine_code] returns.  [P] is the type of the
    parts mapping: part objects as the decoder returns it, plain
    dictionaries once the web layer has converted it. *)
Record engine_result (P : Type) : Type := {
  er_search_type : string;
  er_engine_code : string;
  er_engine_info : engine_info_dict;
  er_parts_compatibility : P;
  er_total_parts : nat;
  er_parts_categories : list string
}.
Arguments er_search_type {P} _.
Arguments er_engine_code {P} _.
Arguments er_engine_info {P} _.
Arguments er_parts_compatibility {P} _.
Arguments er_total_parts {P} _.
Arguments er_parts_categories {P} _.

(** The payload under ['data'] of a universal search. *)
Inductive search_data (P : Type) : Type :=
| EngineData (r : engine_result P)
| VinData (v : EnhancedVehicleInfo.t).
Arguments EngineData {P} r.
Arguments VinData {P} v.

(** The dictionary [search] returns; a key that is absent is [None]. *)
Record search_result (P : Type) : Type := {
  success : bool;
  search_type : option string;
  data : option (search_data P);
  error : option string;
  suggestion : option string
}.
Arguments success {P} _.
Arguments search_type {P} _.
Arguments data {P} _.
Arguments error {P} _.
Arguments suggestion {P} _.

(** Category -> part key -> part object. *)
Definition engine_parts : Type := Dict.t (Dict.t PartInformation.t).

(** [sum(xs)] *)
Definition py_sum (xs : list nat) : nat := fold_left Nat.add xs 0.

Module EnhancedEngineVINDecoder.

Import PartInformation EngineInfo.

(** The instance attributes. *)
Record t : Type := {
  nhtsa_base_url : string;
  engine_database : Dict.t EngineInfo.t;
  engine_parts_database : Dict.t engine_parts
}.

Definition __init__ : t :=
  {| nhtsa_base_url := "https://vpic.nhtsa.dot.gov/api";
     engine_database :=
       [ ("D16W7",
          {| engine_code := "D16W7";
             displacement := "1.6L (1590cc)";
             type_ := "SOHC VTEC";
             fuel_system := "PGM-FI Multipoint";
             valves_per_cylinder := 4;
             compression_ratio := "9.6:1";
             max_power := "127 hp @ 6600 rpm";
             max_torque := "107 lb-ft @ 5500 rpm";
             fuel_type := "Gasoline";
             common_vehicles :=
               [ [ ("make", "Honda");
                   ("model", "Civic");
                   ("years", "2001-2005") ];
                 [ ("make", "Honda");
                   ("model", "Civic Si");
                   ("years", "2002-2005") ] ] |});
         ("D17A1",
          {| engine_code := "D17A1";
             displacement := "1.7L (1668cc)";
             type_ := "SOHC VTEC";
             fuel_system := "PGM-FI Multipoint";
             valves_per_cylinder := 4;
             compression_ratio := "9.5:1";
             max_power := "115 hp @ 6100 rpm";
             max_torque := "110 lb-ft @ 4500 rpm";
             fuel_type := "Gasoline";
             common_vehicles :=
               [ [ ("make", "Honda");
                   ("model", "Civic");
                   ("years", "2001-2005") ];
                 [ ("make", "Honda");
                   ("model", "Civic Hybrid");
                   ("years", "2003-2005") ] ] |});
         ("D16Y8",
          {| engine_code := "D16Y8";
             displacement := "1.6L (1590cc)";
             type_ := "SOHC VTEC";
             fuel_system := "PGM-FI Multipoint";
             valves_per_cylinder := 4;
             compression_ratio := "9.6:1";
             max_power := "127 hp @ 6600 rpm";
             max_torque := "107 lb-ft @ 5500 rpm";
             fuel_type := "Gasoline";
             common_vehicles :=
               [ [ ("make", "Honda");
                   ("model", "Civic");
                   ("years", "1996-2000") ];
                 [ ("make", "Honda");
                   ("model", "Civic Si");
                   ("years", "1999-2000") ] ] |});
         ("1ZZ-FE",
          {| engine_code := "1ZZ-FE";
             displacement := "1.8L (1794cc)";
             type_ := "DOHC VVT-i";
             fuel_system := "Electronic Fuel Injection";
             valves_per_cylinder := 4;
             compression_ratio := "10.0:1";
             max_power := "130 hp @ 6400 rpm";
             max_torque := "125 lb-ft @ 4200 rpm";
             fuel_type := "Gasoline";
             common_vehicles :=
               [ [ ("make", "Toyota");
                   ("model", "Corolla");
                   ("years", "2000-2008") ];
                 [ ("make", "Toyota");
                   ("model", "Camry");
                   ("years", "2000-2008") ] ] |});
         ("2AZ-FE",
          {| engine_code := "2AZ-FE";
             displacement := "2.4L (2362cc)";
             type_ := "DOHC VVT-i";
             fuel_system := "Electronic Fuel Injection";
             valves_per_cylinder := 4;
             compression_ratio := "9.6:1";
             max_power := "160 hp @ 5600 rpm";
             max_torque := "162 lb-ft @ 4000 rpm";
             fuel_type := "Gasoline";
             common_vehicles :=
               [ [ ("make", "Toyota");
                   ("model", "Camry");
                   ("years", "2002-2011") ];
                 [ ("make", "Toyota");
                   ("model", "RAV4");
                   ("years", "2006-2012") ] ] |}) ];
     engine_parts_database :=
       [ ("D16W7",
          [ ("engine_parts",
             [ ("air_filter",
                {| part_name := "Air Filter";
                   part_number := "17220-P2A-000";
                   brand := "Honda OEM";
                   price_range := "$12-22";
                   compatibility_notes :=
                     "Fits 2001-2005 Honda Civic with D16W7 engine";
                   specifications :=
                     Some [ ("filter_type", "Paper");
                            ("dimensions", ("7.8" ++ dq ++ " x 6.1" ++ dq ++ " x 1.2" ++ dq)) ];
                   alternatives :=
                     Some ["Fram CA10467"; "K&N 33-2276"; "Mann C 2275"];
                   maintenance_interval := "Every 12,000 miles" |});
               ("oil_filter",
                {| part_name := "Oil Filter";
                   part_number := "15400-PLM-A02";
                   brand := "Honda OEM";
                   price_range := "$6-12";
                   compatibility_notes := "Fits Honda D16W7 engine";
                   specifications :=
                     Some [ ("filter_type", "Cartridge");
                            ("thread_size", "M20 x 1.5") ];
                   alternatives :=
                     Some ["Fram PH3980"; "Mobil 1 M1-110"; "K&N HP-1008"];
                   maintenance_interval := "Every 5,000 miles" |});
               ("spark_plugs",
                {| part_name := "Spark Plugs";
                   part_number := "98079-55846";
                   brand := "Honda OEM (NGK)";
                   price_range := "$6-10 each";
                   compatibility_notes :=
                     "Iridium spark plugs for D16W7 VTEC engine";
                   specifications :=
                     Some [ ("gap", ("0.039-0.043" ++ dq));
                            ("heat_range", "6");
                            ("thread_size", "14mm") ];
                   alternatives :=
                     Some ["NGK ZFR6F-11"; "Denso IK20"; "Champion RE14MCC4"];
                   maintenance_interval := "Every 60,000 miles" |});
               ("timing_belt",
                {| part_name := "Timing Belt";
                   part_number := "14400-P2A-004";
                   brand := "Honda OEM";
                   price_range := "$45-85";
                   compatibility_notes := "Timing belt for D16W7 SOHC VTEC";
                   specifications :=
                     Some [("length", "102 teeth"); ("width", "25mm")];
                   alternatives :=
                     Some ["Gates T297"; "Dayco 95297"; "Continental 40297"];
                   maintenance_interval := "Every 105,000 miles" |});
               ("water_pump",
                {| part_name := "Water Pump";
                   part_number := "19200-P2A-003";
                   brand := "Honda OEM";
                   price_range := "$65-120";
                   compatibility_notes := "Water pump for Honda D16W7 engine";
                   specifications :=
                     Some [ ("outlet_diameter", "38mm");
                            ("impeller_type", "Centrifugal") ];
                   alternatives :=
                     Some [ "GMB GWH-43A";
                            "Aisin WPH-043";
                            "Beck Arnley 131-2243" ];
                   maintenance_interval :=
                     "Every 105,000 miles (with timing belt)" |});
               ("vtec_solenoid",
                {| part_name := "VTEC Solenoid Valve";
                   part_number := "15810-P2A-A01";
                   brand := "Honda OEM";
                   price_range := "$85-150";
                   compatibility_notes := "VTEC solenoid valve for D16W7 engine";
                   specifications :=
                     Some [("voltage", "12V"); ("resistance", "14-30 ohms")];
                   alternatives :=
                     Some [ "Standard VS63";
                            "Wells SU4086";
                            "Beck Arnley 028-0238" ];
                   maintenance_interval := "Replace if faulty" |}) ]);
            ("brake_parts",
             [ ("brake_pads_front",
                {| part_name := "Front Brake Pads";
                   part_number := "45022-S5A-E50";
                   brand := "Honda OEM";
                   price_range := "$35-65";
                   compatibility_notes :=
                     "Ceramic brake pads for 2001-2005 Civic";
                   specifications :=
                     Some [("pad_type", "Ceramic"); ("thickness", "10mm")];
                   alternatives :=
                     Some [ "Akebono ACT787";
                            "Wagner ThermoQuiet QC787";
                            "RayBestos SGD787C" ];
                   maintenance_interval := "Every 25,000-40,000 miles" |});
               ("brake_rotors_front",
                {| part_name := "Front Brake Rotors";
                   part_number := "45251-S5A-A10";
                   brand := "Honda OEM";
                   price_range := "$55-95 each";
                   compatibility_notes := "Vented rotors for Honda Civic";
                   specifications :=
                     Some [("diameter", "262mm"); ("thickness", "22mm")];
                   alternatives :=
                     Some [ "Centric 121.40047";
                            "RayBestos 96954R";
                            "Wagner BD125508" ];
                   maintenance_interval := "Every 50,000-70,000 miles" |}) ]);
            ("maintenance_parts",
             [ ("coolant",
                {| part_name := "Engine Coolant";
                   part_number := "08CLA-P99-08ZA";
                   brand := "Honda OEM";
                   price_range := "$12-18 per gallon";
                   compatibility_notes := "Honda Long Life Coolant for D16W7";
                   specifications :=
                     Some [ ("type", "Ethylene Glycol");
                            ("color", "Blue/Green") ];
                   alternatives :=
                     Some [ "Prestone Honda/Acura";
                            "Zerex Asian Blue";
                            "Peak Final Charge" ];
                   maintenance_interval := "Every 60,000 miles" |}) ]) ]) ] |}.

Definition upper_AZ : Re.cclass := Re.Bracket [("A", "Z")]%char.

(** The Honda shape [r'(X\d{2}[A-Z]\d?)'] for the series letter [X]; group
    1 is the whole match. *)
Definition honda (series : ascii) : Re.regex :=
  [Re.One (Re.Chr series); Re.Rep 2 Re.Digit; Re.One upper_AZ; Re.Opt Re.Digit].

Definition honda_patterns : list Re.regex :=
  [ honda "D";   (* r'(D\d{2}[A-Z]\d?)' *)
    honda "B";   (* r'(B\d{2}[A-Z]\d?)' *)
    honda "H";   (* r'(H\d{2}[A-Z]\d?)' *)
    honda "F";   (* r'(F\d{2}[A-Z]\d?)' *)
    honda "K"    (* r'(K\d{2}[A-Z]\d?)' *)
  ]%char.

Definition toyota_patterns : list Re.regex :=
  [ (* r'(\d[A-Z]{2}-[A-Z]{2})' *)
    [Re.One Re.Digit; Re.Rep 2 upper_AZ; Re.One (Re.Chr "-"); Re.Rep 2 upper_AZ];
    (* r'(\d[A-Z]{2}FE)' *)
    [Re.One Re.Digit; Re.Rep 2 upper_AZ; Re.One (Re.Chr "F"); Re.One (Re.Chr "E")]
  ]%char.

Definition all_patterns : list Re.regex := honda_patterns ++ toyota_patterns.

(** The [for pattern in all_patterns] loop, which returns at the first
    pattern that matches. *)
Fixpoint first_match (patterns : list Re.regex) (engine_input : string)
  : option string :=
  match patterns with
  | [] => None
  | pattern :: rest =>
      match Re.re_search pattern engine_input with
      | Some m => Some m
      | None => first_match rest engine_input
      end
  end.

Definition extract_engine_code (engine_input : string)
  : state t (option string) :=
  let engine_input := PyStr.upper (PyStr.strip engine_input) in
  match first_match all_patterns engine_input with
  | Some m => ret (Some m)
  | None =>
      db <- gets engine_database ;;
      if Dict.mem engine_input db then ret (Some engine_input) else ret None
  end.

Definition is_engine_code (input_string : string) : state t bool :=
  let input_string := PyStr.strip input_string in
  if Nat.eqb (PyStr.len input_string) 17 then ret false
  else
    code <- extract_engine_code input_string ;;
    ret (match code with Some _ => true | None => false end).

(** [if not engine_code]: [None] and the empty string are falsy. *)
Definition no_code (engine_code : option string) : bool :=
  match engine_code with
  | None => true
  | Some c => PyStr.falsy c
  end.

Definition search_by_engine_code (engine_input : string)
  : state t (option (engine_result engine_parts)) :=
  engine_code <- extract_engine_code engine_input ;;
  if no_code engine_code then ret None
  else
    let engine_code := match engine_code with Some c => c | None => "" end in
    db <- gets engine_database ;;
    match Dict.get (PyStr.upper engine_code) db with
    | None => ret None
    | Some engine_info =>
        pdb <- gets engine_parts_database ;;
        let parts_data := Dict.get_or (PyStr.upper engine_code) [] pdb in
        ret (Some
          {| er_search_type := "engine_code";
             er_engine_code := PyStr.upper engine_code;
             er_engine_info :=
               {| ei_displacement := displacement engine_info;
                  ei_type := type_ engine_info;
                  ei_fuel_system := fuel_system engine_info;
                  ei_valves_per_cylinder := valves_per_cylinder engine_info;
                  ei_compression_ratio := compression_ratio engine_info;
                  ei_max_power := max_power engine_info;
                  ei_max_torque := max_torque engine_info;
                  ei_fuel_type := fuel_type engine_info;
                  ei_common_vehicles := common_vehicles engine_info |};
             er_parts_compatibility := parts_data;
             er_total_parts :=
               py_sum (map (fun category => length category)
                         (Dict.values parts_data));
             er_parts_categories := Dict.keys parts_data |})
    end.

Section Search.

Variable nhtsa : nhtsa_service.

Definition search (search_input : string)
  : state t (outcome (search_result engine_parts)) :=
  let search_input := PyStr.strip search_input in
  engine <- is_engine_code search_input ;;
  if (engine : bool) then
    result <- search_by_engine_code search_input ;;
    match result with
    | Some result =>
        ret (Returned
          {| success := true;
             search_type := Some "engine_code";
             data := Some (EngineData result);
             error := None;
             suggestion := None |})
    | None =>
        ret (Returned
          {| success := false;
             search_type := None;
             data := None;
             error := Some ("Engine code not found: " ++ search_input);
             suggestion := Some "Try: D16W7, D17A1, 1ZZ-FE, 2AZ-FE" |})
    end
  else
    let decoder := EnhancedJapaneseCarVINDecoder.__init__ in
    match evalState
            (EnhancedJapaneseCarVINDecoder.decode_vin nhtsa search_input)
            decoder with
    | Raised e => ret (Raised e)
    | Returned (Some vehicle_info) =>
        ret (Returned
          {| success := true;
             search_type := Some "vin";
             data := Some (VinData vehicle_info);
             error := None;
             suggestion := None |})
    | Returned None =>
        ret (Returned
          {| success := false;
             search_type := None;
             data := None;
             error := Some ("Could not decode VIN: " ++ search_input);
             suggestion := Some "Ensure VIN is exactly 17 characters" |})
    end.

End Search.

End EnhancedEngineVINDecoder.

(** ** enhanced_web_with_engine_search.py *)

Module PartDict.

(** The JSON object [convert_parts_to_dict] builds for one part. *)
Record t : Type := {
  name : string;
  part_number : string;
  brand : string;
  price_range : string;
  compatibility_notes : string;
  maintenance_interval : string;
  specifications : Dict.t string;
  alternatives : list string
}.

End PartDict.

(** Category -> part key -> JSON object. *)
Definition json_parts : Type := Dict.t (Dict.t PartDict.t).

(** A Flask response: the status code and the JSON body.  [jsonify(x)]
    alone is status 200; [jsonify(x), n] is status [n]. *)
Record http_response (B : Type) : Type := {
  status : nat;
  body : B
}.
Arguments status {B} _.
Arguments body {B} _.

Definition jsonify {B} (x : B) : http_response B :=
  {| status := 200; body := x |}.

Definition jsonify_with {B} (x : B) (code : nat) : http_response B :=
  {| status := code; body := x |}.

(** The body of [/decode]. *)
Record decode_body : Type := {
  db_success : bool;
  db_vehicle_info : option EnhancedVehicleInfo.t;
  db_error : option string
}.

(** The body of [/api/engine/<engine_code>]. *)
Record engine_body : Type := {
  eb_success : bool;
  eb_engine_data : option (engine_result json_parts);
  eb_error : option string
}.

Module Web.

(** [x or default] for an optional value. *)
Definition or_else {A} (x : option A) (default : A) : A :=
  match x with Some v => v | None => default end.

Definition part_to_dict (part_info : PartInformation.t) : PartDict.t :=
  {| PartDict.name := PartInformation.part_name part_info;
     PartDict.part_number := PartInformation.part_number part_info;
     PartDict.brand := PartInformation.brand part_info;
     PartDict.price_range := PartInformation.price_range part_info;
     PartDict.compatibility_notes :=
       PartInformation.compatibility_notes part_info;
     PartDict.maintenance_interval :=
       PartInformation.maintenance_interval part_info;
     PartDict.specifications :=
       or_else (PartInformation.specifications part_info) [];
     PartDict.alternatives :=
       or_else (PartInformation.alternatives part_info) [] |}.

(** [convert_parts_to_dict] on the engine tables, whose categories are all
    dictionaries of part objects (the [isinstance(parts, dict)] branch). *)
Definition convert_parts_to_dict (parts_compatibility : engine_parts)
  : json_parts :=
  map (fun '(category, parts) =>
         (category,
          map (fun '(part_key, part_info) => (part_key, part_to_dict part_info))
              parts))
      parts_compatibility.

(** [engine_data['parts_compatibility'] = convert_parts_to_dict(...)] *)
Definition convert_engine_data (engine_data : engine_result engine_parts)
  : engine_result json_parts :=
  {| er_search_type := er_search_type engine_data;
     er_engine_code := er_engine_code engine_data;
     er_engine_info := er_engine_info engine_data;
     er_parts_compatibility :=
       convert_parts_to_dict (er_parts_compatibility engine_data);
     er_total_parts := er_total_parts engine_data;
     er_parts_categories := er_parts_categories engine_data |}.

(** The result of [search] as [/search] serialises it: the parts of an
    engine hit (a success whose ['search_type'] is ['engine_code'], which
    is when ['data'] holds an engine result) are converted, everything
    else goes out as it is. *)
Definition convert_result (result : search_result engine_parts)
  : search_result json_parts :=
  {| success := success result;
     search_type := search_type result;
     data :=
       match data result with
       | Some (EngineData engine_data) =>
           Some (EngineData (convert_engine_data engine_data))
       | Some (VinData vehicle_info) => Some (VinData vehicle_info)
       | None => None
       end;
     error := error result;
     suggestion := suggestion result |}.

(** The [except Exception as e] handler of [/search]. *)
Definition search_failed (e : string) : http_response (search_result json_parts) :=
  jsonify {| success := false;
             search_type := None;
             data := None;
             error := Some ("Server error: " ++ e);
             suggestion := None |}.

Section Routes.

Variable nhtsa : nhtsa_service.

(** [POST /search].  [request_json] is [request.get_json()] (the source's
    local [data]): the JSON object of the request, or the exception raised
    for a body that has none (or whose [search_input] is no string). *)
Definition universal_search (request_json : outcome (Dict.t string))
  : state EnhancedEngineVINDecoder.t (http_response (search_result json_parts)) :=
  match request_json with
  | Raised e => ret (search_failed e)
  | Returned payload =>
      let search_input := PyStr.strip (Dict.get_or "search_input" "" payload) in
      if PyStr.falsy search_input then
        ret (jsonify {| success := false;
                        search_type := None;
                        data := None;
                        error := Some "Search input is required";
                        suggestion := None |})
      else
        result <- EnhancedEngineVINDecoder.search nhtsa search_input ;;
        match result with
        | Raised e => ret (search_failed e)
        | Returned result => ret (jsonify (convert_result result))
        end
  end.

Definition decode_failed (e : string) : http_response decode_body :=
  jsonify {| db_success := false;
             db_vehicle_info := None;
             db_error := Some ("Server error: " ++ e) |}.

(** [POST /decode] *)
Definition decode_vin (request_json : outcome (Dict.t string))
  : state EnhancedEngineVINDecoder.t (http_response decode_body) :=
  match request_json with
  | Raised e => ret (decode_failed e)
  | Returned payload =>
      let vin := PyStr.strip (Dict.get_or "vin" "" payload) in
      result <- EnhancedEngineVINDecoder.search nhtsa vin ;;
      match result with
      | Raised e => ret (decode_failed e)
      | Returned result =>
          match success result, data result with
          | true, Some (VinData vehicle_info) =>
              ret (jsonify {| db_success := true;
                              db_vehicle_info := Some vehicle_info;
                              db_error := None |})
          | _, _ =>
              ret (jsonify {| db_success := false;
                              db_vehicle_info := None;
                              db_error :=
                                Some (or_else (error result)
                                              "Could not decode VIN") |})
          end
      end
  end.

End Routes.

(** [GET /api/engine/<engine_code>].  Nothing in the body of the [try]
    raises on a string, so its [except] branch (status 500) is left out. *)
Definition api_engine_search (engine_code : string)
  : state EnhancedEngineVINDecoder.t (http_response engine_body) :=
  result <- EnhancedEngineVINDecoder.search_by_engine_code engine_code ;;
  match result with
  | Some result =>
      ret (jsonify {| eb_success := true;
                      eb_engine_data := Some (convert_engine_data result);
                      eb_error := None |})
  | None =>
      ret (jsonify_with
             {| eb_success := false;
                eb_engine_data := None;
                eb_error := Some ("Engine code not found: " ++ engine_code) |}
             404)
  end.

End Web.

(** ** Vocabulary of the statements *)

(** The NHTSA service when it cannot be reached: both methods catch the
    request error and return their empty value. *)
Definition offline : nhtsa_service :=
  {| decode_vin_nhtsa := fun _ => Returned [];
     get_recalls := fun _ => Returned [] |}.

(** The characters of a string. *)
Definition chars (s : string) : list ascii := list_ascii_of_string s.

(** A string that is empty or starts with a character that is not white
    space, as [lstrip] leaves it. *)
Definition starts_clean (s : string) : Prop :=
  match s with
  | EmptyString => True
  | String c _ => PyStr.is_space c = false
  end.

(** The three-level lookup [catalog[make][model][year]], which misses when
    any of the three keys is absent. *)
Definition catalog_lookup {V} (catalog : Dict.t (Dict.t (Dict.t V)))
  (make model year : string) : option V :=
  match Dict.get make catalog with
  | None => None
  | Some models =>
      match Dict.get model models with
      | None => None
      | Some years => Dict.get year years
      end
  end.

(** All the parts of a fallback catalog, over its categories. *)
Definition all_parts (catalog : Dict.t (list PartInformation.t))
  : list PartInformation.t :=
  concat (Dict.values catalog).

(** A computation that leaves the object it runs on as it found it. *)
Definition reads_only {S A} (c : state S A) : Prop :=
  forall self, execState c self = self.

(** The same call made twice in a row on one object: both results. *)
Definition twice {S A} (c : state S A) : state S (A * A) :=
  first <- c ;;
  second <- c ;;
  ret (first, second).

(** ** enhanced_vin_decoder.py: reference lookups and feature lists *)

Module MaintenanceSchedule.

(** [@dataclass class MaintenanceSchedule] *)
Record t : Type := {
  interval_miles : string;
  interval_months : string;
  services : option (list string);
  parts_needed : option (list string);
  estimated_cost : string
}.

End MaintenanceSchedule.

Module VehicleSpecifications.

(** [@dataclass class VehicleSpecifications] *)
Record t : Type := {
  engine_displacement : string;
  horsepower : string;
  torque : string;
  fuel_capacity : string;
  oil_capacity : string;
  transmission_fluid_capacity : string;
  coolant_capacity : string;
  brake_fluid_type : string;
  tire_size : string;
  wheel_size : string;
  weight : string;
  dimensions : option (Dict.t string);
  towing_capacity : string;
  payload_capacity : string
}.

End VehicleSpecifications.

(** The methods of [class EnhancedJapaneseCarVINDecoder] that fill the
    remaining fields of a decoded vehicle.  They only read; the two tables
    they read are the attributes below. *)
Module VinReference.

Import MaintenanceSchedule VehicleSpecifications.

(** The instance attributes [maintenance_schedules] and
    [vehicle_specifications]. *)
Record t : Type := {
  maintenance_schedules :
    Dict.t (Dict.t (Dict.t (Dict.t MaintenanceSchedule.t)));
  vehicle_specifications :
    Dict.t (Dict.t (Dict.t (Dict.t VehicleSpecifications.t)))
}.

Definition __init__ : t :=
  {| maintenance_schedules :=
       [ ("TOYOTA",
          [ ("CAMRY",
             [ ("2005",
                [ ("5000_miles",
                   {| interval_miles := "5,000";
                      interval_months := "6";
                      services :=
                        Some [ "Oil change";
                               "Tire rotation";
                               "Multi-point inspection" ];
                      parts_needed :=
                        Some ["Oil filter"; "Engine oil"; "Air filter"];
                      estimated_cost := "$50-80" |});
                  ("15000_miles",
                   {| interval_miles := "15,000";
                      interval_months := "12";
                      services :=
                        Some [ "Oil change";
                               "Tire rotation";
                               "Brake inspection";
                               "Air filter replacement" ];
                      parts_needed :=
                        Some [ "Oil filter";
                               "Engine oil";
                               "Air filter";
                               "Cabin air filter" ];
                      estimated_cost := "$80-120" |});
                  ("30000_miles",
                   {| interval_miles := "30,000";
                      interval_months := "24";
                      services :=
                        Some [ "Oil change";
                               "Tire rotation";
                               "Brake inspection";
                               "Transmission fluid check" ];
                      parts_needed :=
                        Some [ "Oil filter";
                               "Engine oil";
                               "Brake fluid";
                               "Transmission fluid" ];
                      estimated_cost := "$120-180" |});
                  ("60000_miles",
                   {| interval_miles := "60,000";
                      interval_months := "48";
                      services :=
                        Some [ "Oil change";
                               "Tire rotation";
                               "Brake service";
                               "Spark plug replacement" ];
                      parts_needed :=
                        Some [ "Oil filter";
                               "Engine oil";
                               "Spark plugs";
                               "Brake pads" ];
                      estimated_cost := "$200-350" |});
                  ("90000_miles",
                   {| interval_miles := "90,000";
                      interval_months := "72";
                      services :=
                        Some [ "Oil change";
                               "Tire rotation";
                               "Timing belt replacement";
                               "Water pump replacement" ];
                      parts_needed :=
                        Some [ "Oil filter";
                               "Engine oil";
                               "Timing belt kit";
                               "Water pump" ];
                      estimated_cost := "$400-600" |}) ]) ]) ]) ];
     vehicle_specifications :=
       [ ("TOYOTA",
          [ ("CAMRY",
             [ ("2005",
                [ ("1ZZ-FE",
                   {| engine_displacement := "1.8L";
                      horsepower := "126 hp";
                      torque := "122 lb-ft";
                      fuel_capacity := "18.5 gallons";
                      oil_capacity := "4.2 quarts";
                      transmission_fluid_capacity := "2.2 quarts";
                      coolant_capacity := "8.8 quarts";
                      brake_fluid_type := "DOT 3";
                      tire_size := "205/65R15";
                      wheel_size := "15x6.5";
                      weight := "3,130 lbs";
                      dimensions :=
                        Some [ ("length", ("189.2" ++ dq));
                               ("width", ("70.7" ++ dq));
                               ("height", ("57.1" ++ dq));
                               ("wheelbase", ("107.1" ++ dq)) ];
                      towing_capacity := "1,000 lbs";
                      payload_capacity := "850 lbs" |}) ]) ]) ]) ] |}.

Definition get_common_issues (make model year : string) : list string :=
  let common_issues :=
    [ ("TOYOTA",
       [ ("CAMRY",
          [ ("2005",
             [ "Oil consumption in 1ZZ-FE engine";
               "Transmission shifting issues";
               "Power steering pump noise";
               "Dashboard cracking";
               "Headlight condensation" ]) ]) ]);
      ("HONDA",
       [ ("CIVIC",
          [ ("2005",
             [ "Transmission failure in automatic models";
               "Engine mount deterioration";
               "AC compressor issues";
               "Power window regulator failure";
               "Rust in rear wheel wells" ]) ]) ]) ] in
  Dict.get_or year []
    (Dict.get_or (PyStr.upper model) []
       (Dict.get_or (PyStr.upper make) [] common_issues)).

Definition get_maintenance_schedule (self : t) (make model year : string)
  : Dict.t MaintenanceSchedule.t :=
  Dict.get_or year []
    (Dict.get_or (PyStr.upper model) []
       (Dict.get_or (PyStr.upper make) [] (maintenance_schedules self))).

Definition get_vehicle_specifications (self : t)
  (make model year engine : string) : VehicleSpecifications.t :=
  let specs :=
    Dict.get engine
      (Dict.get_or year []
         (Dict.get_or (PyStr.upper model) []
            (Dict.get_or (PyStr.upper make) [] (vehicle_specifications self)))) in
  match specs with
  | None =>
      {| engine_displacement := "Varies by engine";
         horsepower := "";
         torque := "";
         fuel_capacity := "Varies by model";
         oil_capacity := "4-6 quarts";
         transmission_fluid_capacity := "";
         coolant_capacity := "";
         brake_fluid_type := "DOT 3 or DOT 4";
         tire_size := "";
         wheel_size := "";
         weight := "";
         dimensions :=
           Some [ ("length", "Varies");
                  ("width", "Varies");
                  ("height", "Varies") ];
         towing_capacity := "";
         payload_capacity := "" |}
  | Some specs => specs
  end.

(** [if decoded_data.get(key)]: the key is there and its value is not
    empty. *)
Definition has_value (key : string) (decoded_data : Dict.t string) : bool :=
  match Dict.get key decoded_data with
  | Some v => negb (PyStr.falsy v)
  | None => false
  end.

Definition safety_mapping : Dict.t string :=
    [ ("Anti-lock Braking System (ABS)", "ABS");
      ("Electronic Stability Control (ESC)", "ESC");
      ("Traction Control", "Traction Control");
      ("Tire Pressure Monitoring System (TPMS) Type", "TPMS");
      ("Backup Camera", "Backup Camera");
      ("Lane Departure Warning (LDW)", "Lane Departure Warning");
      ("Forward Collision Warning (FCW)", "Forward Collision Warning");
      ("Blind Spot Warning (BSW)", "Blind Spot Warning");
      ("Adaptive Cruise Control (ACC)", "Adaptive Cruise Control") ].

(** The loop [for feature, display_name in safety_mapping.items()] with
    its [append]. *)
Definition extract_safety_features (decoded_data : Dict.t string)
  : list string :=
  fold_left
    (fun safety_features '(feature, display_name) =>
       if has_value feature decoded_data
       then (safety_features ++ [display_name])%list
       else safety_features)
    safety_mapping [].

Definition feature_fields : list string :=
    [ "Air Conditioning";
      "Power Windows";
      "Power Locks";
      "Power Mirrors";
      "Cruise Control";
      "CD Player";
      "AM/FM Radio";
      "Bluetooth" ].

Definition extract_standard_features (decoded_data : Dict.t string)
  : list string :=
  fold_left
    (fun features field =>
       if has_value field decoded_data
       then (features ++ [field])%list
       else features)
    feature_fields [].

Definition extract_optional_features (decoded_data : Dict.t string)
  : list string :=
  ["Sunroof"; "Leather Seats"; "Navigation System"; "Premium Audio"].

Definition get_service_bulletins (make model year : string) : list string :=
  [ "TSB-" ++ year ++ "-001: Engine oil consumption";
    "TSB-" ++ year ++ "-002: Transmission shifting concerns";
    "TSB-" ++ year ++ "-003: Brake system inspection" ].

End VinReference.

(** ** enhanced_web_interface.py *)

Module PartJson.

(** The dictionary [parts_info_to_dict] builds for one part; [None] is
    JSON [null]. *)
Record t : Type := {
  part_name : string;
  part_number : string;
  brand : string;
  price_range : string;
  compatibility_notes : string;
  specifications : option (Dict.t string);
  alternatives : option (list string);
  maintenance_interval : string
}.

End PartJson.

(** The body of [/api/parts/<vin>]. *)
Record parts_body : Type := {
  pb_success : bool;
  pb_parts : option (Dict.t (list PartJson.t));
  pb_error : option string
}.

(** The body of [/api/maintenance/<vin>]. *)
Record maintenance_body : Type := {
  mb_success : bool;
  mb_maintenance : option (Dict.t MaintenanceSchedule.t);
  mb_error : option string
}.

Module RawWeb.

(** What [part.part_name] raises when [part] is a string. *)
Definition no_part_name : string :=
  "'str' object has no attribute 'part_name'".

Definition part_dict (part : PartInformation.t) : PartJson.t :=
  {| PartJson.part_name := PartInformation.part_name part;
     PartJson.part_number := PartInformation.part_number part;
     PartJson.brand := PartInformation.brand part;
     PartJson.price_range := PartInformation.price_range part;
     PartJson.compatibility_notes := PartInformation.compatibility_notes part;
     PartJson.specifications := PartInformation.specifications part;
     PartJson.alternatives := PartInformation.alternatives part;
     PartJson.maintenance_interval := PartInformation.maintenance_interval part |}.

(** The loop of [parts_info_to_dict] over a catalog whose categories are
    dictionaries: [for part in parts] walks the keys of the category,
    which are strings, so the first key met raises at [part.part_name]. *)
Fixpoint parts_of_keys (categories : Dict.t (Dict.t PartInformation.t))
  : outcome (Dict.t (list PartJson.t)) :=
  match categories with
  | [] => Returned []
  | (category, parts) :: rest =>
      match parts with
      | _ :: _ => Raised no_part_name
      | [] =>
          match parts_of_keys rest with
          | Returned result => Returned ((category, []) :: result)
          | Raised e => Raised e
          end
      end
  end.

Definition parts_info_to_dict (parts_compatibility : parts_catalog)
  : outcome (Dict.t (list PartJson.t)) :=
  match parts_compatibility with
  | Basic categories =>
      if Dict.falsy categories then Returned []
      else
        Returned
          (map (fun '(category, parts) => (category, map part_dict parts))
               categories)
  | Detailed categories =>
      if Dict.falsy categories then Returned []
      else parts_of_keys categories
  end.

(** [maintenance_to_dict] copies the five fields of each schedule. *)
Definition maintenance_to_dict
  (maintenance_schedule : Dict.t MaintenanceSchedule.t)
  : Dict.t MaintenanceSchedule.t :=
  if Dict.falsy maintenance_schedule then []
  else
    map (fun '(interval, schedule) =>
           (interval,
            {| MaintenanceSchedule.interval_miles :=
                 MaintenanceSchedule.interval_miles schedule;
               MaintenanceSchedule.interval_months :=
                 MaintenanceSchedule.interval_months schedule;
               MaintenanceSchedule.services :=
                 MaintenanceSchedule.services schedule;
               MaintenanceSchedule.parts_needed :=
                 MaintenanceSchedule.parts_needed schedule;
               MaintenanceSchedule.estimated_cost :=
                 MaintenanceSchedule.estimated_cost schedule |}))
        maintenance_schedule.

Section Handlers.

Variable nhtsa : nhtsa_service.

(** [handle_api_parts]: the status sent and the JSON written. *)
Definition handle_api_parts (vin : string)
  : state EnhancedJapaneseCarVINDecoder.t (http_response parts_body) :=
  vehicle_info <- EnhancedJapaneseCarVINDecoder.decode_vin nhtsa vin ;;
  let failed e :=
    jsonify_with
      {| pb_success := false; pb_parts := None; pb_error := Some e |} 500 in
  match vehicle_info with
  | Raised e => ret (failed e)
  | Returned (Some vehicle_info) =>
      match parts_info_to_dict
              (EnhancedVehicleInfo.parts_compatibility vehicle_info) with
      | Raised e => ret (failed e)
      | Returned parts_dict =>
          ret (jsonify_with
                 {| pb_success := true;
                    pb_parts := Some parts_dict;
                    pb_error := None |} 200)
      end
  | Returned None =>
      ret (jsonify_with
             {| pb_success := false;
                pb_parts := None;
                pb_error := Some "Could not decode VIN" |} 200)
  end.

(** [handle_api_maintenance].  [reference] holds the maintenance table of
    the decoder; [vehicle_info.maintenance_schedule] is what [decode_vin]
    looked up in it for the make, model and year it decoded. *)
Definition handle_api_maintenance (reference : VinReference.t) (vin : string)
  : state EnhancedJapaneseCarVINDecoder.t (http_response maintenance_body) :=
  vehicle_info <- EnhancedJapaneseCarVINDecoder.decode_vin nhtsa vin ;;
  let unavailable :=
    jsonify_with
      {| mb_success := false;
         mb_maintenance := None;
         mb_error := Some "No maintenance schedule available" |} 200 in
  match vehicle_info with
  | Raised e =>
      ret (jsonify_with
             {| mb_success := false;
                mb_maintenance := None;
                mb_error := Some e |} 500)
  | Returned (Some vehicle_info) =>
      let maintenance_schedule :=
        VinReference.get_maintenance_schedule reference
          (EnhancedVehicleInfo.make vehicle_info)
          (EnhancedVehicleInfo.model vehicle_info)
          (EnhancedVehicleInfo.year vehicle_info) in
      if Dict.falsy maintenance_schedule then ret unavailable
      else
        ret (jsonify_with
               {| mb_success := true;
                  mb_maintenance := Some (maintenance_to_dict maintenance_schedule);
                  mb_error := None |} 200)
  | Returned None => ret unavailable
  end.

End Handlers.

End RawWeb.

(** An NHTSA service that knows one vehicle: it answers every VIN with a
    2005 Toyota Camry, spelt the way NHTSA spells it. *)
Definition camry_service : nhtsa_service :=
  {| decode_vin_nhtsa := fun _ =>
       Returned [("Make", "TOYOTA"); ("Model", "Camry"); ("Model Year", "2005")];
     get_recalls := fun _ => Returned [] |}.

(** An NHTSA service whose decoding call fails with an error that
    [decode_vin_nhtsa] does not catch (here: the JSON of the response is a
    list, so [data.get] fails). *)
Definition broken_service : nhtsa_service :=
  {| decode_vin_nhtsa := fun _ => Raised "'list' object has no attribute 'get'";
     get_recalls := fun _ => Returned [] |}.

(** The four dictionaries [search] can return. *)
Definition engine_hit (result : engine_result engine_parts)
  : search_result engine_parts :=
  {| success := true;
     search_type := Some "engine_code";
     data := Some (EngineData result);
     error := None;
     suggestion := None |}.

Definition engine_miss (search_input : string) : search_result engine_parts :=
  {| success := false;
     search_type := None;
     data := None;
     error := Some ("Engine code not found: " ++ search_input);
     suggestion := Some "Try: D16W7, D17A1, 1ZZ-FE, 2AZ-FE" |}.

Definition vin_hit (vehicle_info : EnhancedVehicleInfo.t)
  : search_result engine_parts :=
  {| success := true;
     search_type := Some "vin";
     data := Some (VinData vehicle_info);
     error := None;
     suggestion := None |}.

Definition vin_miss (search_input : string) : search_result engine_parts :=
  {| success := false;
     search_type := None;
     data := None;
     error := Some ("Could not decode VIN: " ++ search_input);
     suggestion := Some "Ensure VIN is exactly 17 characters" |}.

(** The least and the greatest number of characters a pattern item, and
    a pattern, can match. *)
Definition item_min (i : Re.item) : nat :=
  match i with
  | Re.One _ => 1
  | Re.Opt _ => 0
  | Re.Rep n _ => n
  | Re.Bol | Re.Eol => 0
  end.

Definition item_max (i : Re.item) : nat :=
  match i with
  | Re.One _ => 1
  | Re.Opt _ => 1
  | Re.Rep n _ => n
  | Re.Bol | Re.Eol => 0
  end.

Definition regex_min (p : Re.regex) : nat := list_sum (map item_min p).
Definition regex_max (p : Re.regex) : nat := list_sum (map item_max p).

(** [m] occurs in [s] as a run of consecutive characters. *)
Definition occurs_in (m s : string) : Prop :=
  exists before after : string, s = (before ++ m ++ after)%string.

(** * Properties *)

(** ** Running the state monad *)

Section RunLaws.

Context {S A B : Type}.

Lemma run_bind (c : state S A) (f : A -> state S B) (s : S) :
  runState (bind c f) s =
  runState (f (fst (runState c s))) (snd (runState c s)).
Proof. simpl. destruct (runState c s); reflexivity. Qed.

Lemma run_ret (a : A) (s : S) : runState (ret a) s = (a, s).
Proof. reflexivity. Qed.

Lemma run_gets (f : S -> A) (s : S) : runState (gets f) s = (f s, s).
Proof. reflexivity. Qed.

End RunLaws.

(** ** Strings *)

Section StringFacts.

Import PyStr.

Lemma rstrip_idem (s : string) : rstrip (rstrip s) = rstrip s.
Proof.
  induction s as [|c s IH]; simpl; [reflexivity|].
  destruct (rstrip s) as [|a r] eqn:E.
  - destruct (is_space c) eqn:Hc; simpl; [reflexivity|].
    now rewrite Hc.
  - simpl in IH |- *. now rewrite IH.
Qed.

Lemma lstrip_clean (s : string) : starts_clean (lstrip s).
Proof.
  induction s as [|c s IH]; simpl; [exact I|].
  destruct (is_space c) eqn:Hc; [exact IH | exact Hc].
Qed.

Lemma lstrip_of_clean (s : string) : starts_clean s -> lstrip s = s.
Proof.
  destruct s as [|c s]; simpl; [reflexivity|].
  now intros ->.
Qed.

Lemma rstrip_clean (s : string) : starts_clean s -> starts_clean (rstrip s).
Proof.
  destruct s as [|c s]; simpl; [trivial|].
  intros Hc. destruct (rstrip s); [rewrite Hc|]; exact Hc.
Qed.

(** Stripping twice is stripping once. *)
Lemma strip_idem (s : string) : strip (strip s) = strip s.
Proof.
  unfold strip.
  rewrite (lstrip_of_clean (rstrip (lstrip s))).
  - apply rstrip_idem.
  - apply rstrip_clean, lstrip_clean.
Qed.

(** [c in s] for a one-character string [c] is membership. *)
Lemma contains_char (c : ascii) (s : string) :
  contains (String c EmptyString) s = true <-> In c (chars s).
Proof.
  induction s as [|a s IH]; simpl.
  - split; [discriminate | tauto].
  - destruct (ascii_dec c a) as [->|Hne]; simpl.
    + destruct s; simpl; split; auto.
    + rewrite IH. split; [auto | intros [Heq|H]; [congruence | exact H]].
Qed.

End StringFacts.

(** ** Regular expressions *)

Section RegexFacts.

Import Re.

Lemma take_class_sound (k : cclass) (n : nat) :
  forall s m r,
    take_class n k s = Some (m, r) ->
    s = (m ++ r)%string /\ String.length m = n /\
    forallb (class_mem k) (chars m) = true.
Proof.
  induction n as [|n IH]; intros s m r; simpl.
  - intros [= <- <-]. auto.
  - destruct s as [|c s]; [discriminate|].
    destruct (class_mem k c) eqn:Hc; [|discriminate].
    destruct (take_class n k s) as [[m' r']|] eqn:E; [|discriminate].
    intros [= <- <-]. destruct (IH _ _ _ E) as (-> & <- & Hall).
    simpl. rewrite Hc, Hall. auto.
Qed.

Lemma take_class_complete (k : cclass) :
  forall s,
    forallb (class_mem k) (chars s) = true ->
    take_class (String.length s) k s = Some (s, EmptyString).
Proof.
  induction s as [|c s IH]; simpl; [reflexivity|].
  intros H. apply andb_true_iff in H as [Hc Hs].
  now rewrite Hc, (IH Hs).
Qed.

Lemma string_app_empty (s : string) : (s ++ "")%string = s.
Proof. induction s as [|c s IH]; simpl; [reflexivity | now rewrite IH]. Qed.

Lemma string_app_length (m r : string) :
  String.length (m ++ r) = String.length m + String.length r.
Proof. induction m as [|c m IH]; simpl; [reflexivity | now rewrite IH]. Qed.

End RegexFacts.

(** ** The VIN validator *)

Section Validator.

Import EnhancedJapaneseCarVINDecoder.

Lemma vin_class_excludes (c : ascii) :
  In c ["I"; "O"; "Q"]%char -> Re.class_mem vin_class c = false.
Proof. intros [<-|[<-|[<-|[]]]]; reflexivity. Qed.

Lemma no_invalid_chars (vin : string) :
  forallb (Re.class_mem vin_class) (chars vin) = true ->
  existsb (fun char => PyStr.contains char vin) ["I"; "O"; "Q"] = false.
Proof.
  intros Hall. rewrite forallb_forall in Hall.
  assert (Hno : forall c, In c ["I"; "O"; "Q"]%char ->
                 PyStr.contains (String c EmptyString) vin = false).
  { intros c Hc. destruct (PyStr.contains _ vin) eqn:E; [|reflexivity].
    apply contains_char, Hall in E. rewrite (vin_class_excludes c Hc) in E.
    discriminate. }
  simpl. rewrite !Hno; simpl; auto.
Qed.

Lemma vin_pattern_match (vin : string) :
  String.length vin = 17 ->
  (Re.re_match vin_pattern vin <> None <->
   forallb (Re.class_mem vin_class) (chars vin) = true).
Proof.
  intros Hlen. unfold Re.re_match, vin_pattern. cbn [Re.match_here].
  split.
  - destruct (Re.take_class 17 vin_class vin) as [[m r]|] eqn:E;
      [|intros H; now elim H].
    intros _. destruct (take_class_sound _ _ _ _ _ E) as (Hs & Hm & Hall).
    assert (Hr : String.length r = 0).
    { rewrite Hs, string_app_length, Hm in Hlen. lia. }
    destruct r; [|discriminate].
    now rewrite Hs, string_app_empty.
  - intros Hall. rewrite <- Hlen, (take_class_complete _ _ Hall). simpl.
    discriminate.
Qed.

(** The three tests of [validate_vin] together. *)
Lemma validate_vin_iff (vin : string) :
  validate_vin vin = true <->
  PyStr.len vin = 17 /\
  forallb (Re.class_mem vin_class) (chars vin) = true.
Proof.
  unfold validate_vin, PyStr.len.
  destruct (Nat.eqb_spec (String.length vin) 17) as [Hlen|Hlen].
  - assert (Hf : PyStr.falsy vin = false)
      by (destruct vin; [discriminate | reflexivity]).
    rewrite Hf. simpl orb. cbv iota. cbv zeta.
    pose proof (vin_pattern_match vin Hlen) as Hm.
    destruct (forallb _ (chars vin)) eqn:Hall.
    + rewrite (no_invalid_chars _ Hall).
      destruct (Re.re_match vin_pattern vin);
        [tauto | exfalso; apply (proj2 Hm); auto].
    + destruct (existsb _ _); [split; [discriminate | intros [_ H]; discriminate]|].
      destruct (Re.re_match vin_pattern vin).
      * assert (false = true) by (apply Hm; discriminate). discriminate.
      * split; [discriminate | intros [_ H]; discriminate].
  - rewrite orb_true_r. split; [discriminate | intros [H _]; contradiction].
Qed.

Lemma validate_vin_wrong_length (vin : string) :
  PyStr.len vin <> 17 -> validate_vin vin = false.
Proof.
  intros Hlen. apply not_true_is_false. intros E.
  apply validate_vin_iff in E. tauto.
Qed.

(** C3.  [validate_vin] accepts exactly the strings of 17 characters that
    are all in the class [[A-HJ-NPR-Z0-9]]; so it rejects every string of
    another length and every string in which I, O or Q occurs. *)
Theorem validate_vin_spec (candidate : string) :
  (validate_vin candidate = true <->
   PyStr.len candidate = 17 /\
   forall c, In c (chars candidate) -> Re.class_mem vin_class c = true) /\
  (PyStr.len candidate <> 17 -> validate_vin candidate = false) /\
  (forall c, In c ["I"; "O"; "Q"]%char -> In c (chars candidate) ->
             validate_vin candidate = false).
Proof.
  split; [|split].
  - rewrite validate_vin_iff, forallb_forall. tauto.
  - apply validate_vin_wrong_length.
  - intros c Hc Hin. apply not_true_is_false. intros E.
    apply validate_vin_iff in E. destruct E as [_ Hall].
    rewrite forallb_forall in Hall.
    specialize (Hall c Hin). rewrite (vin_class_excludes c Hc) in Hall.
    discriminate.
Qed.

End Validator.

(** ** The engine decoder reads its tables *)

Section EngineRuns.

Import EnhancedEngineVINDecoder.

Lemma extract_engine_code_run (self : t) (engine_input : string) :
  runState (extract_engine_code engine_input) self =
  (match first_match all_patterns (PyStr.upper (PyStr.strip engine_input)) with
   | Some m => Some m
   | None =>
       if Dict.mem (PyStr.upper (PyStr.strip engine_input)) (engine_database self)
       then Some (PyStr.upper (PyStr.strip engine_input)) else None
   end, self).
Proof.
  unfold extract_engine_code. cbv zeta.
  destruct (first_match all_patterns _); [reflexivity|].
  rewrite run_bind, run_gets. cbn [fst snd].
  destruct (Dict.mem _ _); reflexivity.
Qed.

Lemma is_engine_code_run (self : t) (input_string : string) :
  runState (is_engine_code input_string) self =
  (if Nat.eqb (PyStr.len (PyStr.strip input_string)) 17 then false
   else match evalState (extract_engine_code (PyStr.strip input_string)) self with
        | Some _ => true
        | None => false
        end, self).
Proof.
  unfold is_engine_code, evalState. cbv zeta.
  destruct (Nat.eqb _ 17); [reflexivity|].
  rewrite run_bind, extract_engine_code_run. reflexivity.
Qed.

Lemma search_by_engine_code_state (self : t) (engine_input : string) :
  snd (runState (search_by_engine_code engine_input) self) = self.
Proof.
  unfold search_by_engine_code.
  rewrite run_bind, extract_engine_code_run. cbn [fst snd].
  destruct (no_code _); [reflexivity|]. cbv zeta.
  rewrite run_bind, run_gets. cbn [fst snd].
  destruct (Dict.get _ _); [|reflexivity].
  rewrite run_bind, run_gets. reflexivity.
Qed.

(** The loop over the patterns stops at the first one that matches. *)
Lemma first_match_nth (s : string) :
  forall (patterns : list Re.regex) (i : nat) (p : Re.regex) (m : string),
    nth_error patterns i = Some p ->
    Re.re_search p s = Some m ->
    (forall j q, j < i -> nth_error patterns j = Some q ->
                 Re.re_search q s = None) ->
    first_match patterns s = Some m.
Proof.
  induction patterns as [|p0 ps IH]; intros i p m Hi Hm Hbefore.
  - destruct i; discriminate.
  - destruct i as [|i]; simpl in *.
    + injection Hi as ->. now rewrite Hm.
    + rewrite (Hbefore 0 p0); [|lia|reflexivity].
      apply (IH i p m Hi Hm). intros j q Hj Hq.
      apply (Hbefore (S j) q); [lia | exact Hq].
Qed.

Lemma first_match_none (s : string) (patterns : list Re.regex) :
  first_match patterns s = None <->
  forall p, In p patterns -> Re.re_search p s = None.
Proof.
  induction patterns as [|p0 ps IH]; simpl.
  - split; [intros _ p [] | reflexivity].
  - destruct (Re.re_search p0 s) eqn:E.
    + split; [discriminate|]. intros H. specialize (H p0 (or_introl eq_refl)).
      congruence.
    + rewrite IH. split.
      * intros H p [<-|Hp]; auto.
      * intros H p Hp. apply H. now right.
Qed.

(** What [search] returns, and that it leaves the decoder as it was. *)
Lemma search_run (nhtsa : nhtsa_service) (self : t) (search_input : string) :
  runState (search nhtsa search_input) self =
  (let search_input := PyStr.strip search_input in
   if evalState (is_engine_code search_input) self then
     match evalState (search_by_engine_code search_input) self with
     | Some result =>
         Returned {| success := true;
                     search_type := Some "engine_code";
                     data := Some (EngineData result);
                     error := None;
                     suggestion := None |}
     | None =>
         Returned {| success := false;
                     search_type := None;
                     data := None;
                     error := Some ("Engine code not found: " ++ search_input);
                     suggestion := Some "Try: D16W7, D17A1, 1ZZ-FE, 2AZ-FE" |}
     end
   else
     match evalState
             (EnhancedJapaneseCarVINDecoder.decode_vin nhtsa search_input)
             EnhancedJapaneseCarVINDecoder.__init__ with
     | Raised e => Raised e
     | Returned (Some vehicle_info) =>
         Returned {| success := true;
                     search_type := Some "vin";
                     data := Some (VinData vehicle_info);
                     error := None;
                     suggestion := None |}
     | Returned None =>
         Returned {| success := false;
                     search_type := None;
                     data := None;
                     error := Some ("Could not decode VIN: " ++ search_input);
                     suggestion := Some "Ensure VIN is exactly 17 characters" |}
     end, self).
Proof.
  unfold search. cbv zeta.
  rewrite run_bind. unfold evalState.
  rewrite (is_engine_code_run self (PyStr.strip search_input)). cbn [fst snd].
  match goal with |- context [if ?b then _ else _] => destruct b end.
  - rewrite run_bind.
    pose proof (search_by_engine_code_state self (PyStr.strip search_input)) as Hs.
    destruct (runState (search_by_engine_code _) self) as [[result|] self'];
      cbn [fst snd] in *; subst self'; reflexivity.
  - destruct (fst (runState (EnhancedJapaneseCarVINDecoder.decode_vin _ _) _))
      as [[v|]|e]; reflexivity.
Qed.

(** C1.  An input whose trimmed length is 17 is never an engine code,
    whatever the patterns or the engine table say about it, and the
    universal search hands it to the VIN path: its result is a VIN result
    or the VIN path's error. *)
Theorem is_engine_code_length_17
  (nhtsa : nhtsa_service) (self : t) (input_string : string) :
  PyStr.len (PyStr.strip input_string) = 17 ->
  evalState (is_engine_code input_string) self = false /\
  forall r, evalState (search nhtsa input_string) self = Returned r ->
    search_type r = Some "vin" \/
    (success r = false /\
     error r = Some ("Could not decode VIN: " ++ PyStr.strip input_string)).
Proof.
  intros Hlen.
  assert (Hno : forall s, PyStr.strip s = PyStr.strip input_string ->
                          evalState (is_engine_code s) self = false).
  { intros s Hs. unfold evalState. now rewrite is_engine_code_run, Hs, Hlen. }
  split; [now apply Hno|].
  intros r. unfold evalState at 1. rewrite search_run. cbn [fst]. cbv zeta.
  rewrite (Hno _ (strip_idem input_string)).
  destruct (evalState (EnhancedJapaneseCarVINDecoder.decode_vin _ _) _)
    as [[v|]|e]; intros [= <-]; simpl; auto.
Qed.

(** A 17-character input on which the first Honda pattern matches is
    still not an engine code. *)
Lemma is_engine_code_length_17_witness :
  first_match all_patterns "D16W7300502512345" = Some "D16W7" /\
  evalState (is_engine_code "D16W7300502512345") __init__ = false.
Proof.
  split; [reflexivity|].
  apply (is_engine_code_length_17 offline __init__ "D16W7300502512345").
  reflexivity.
Defined.

(** C4.  The patterns are tried, in the order of [all_patterns], on the
    trimmed and upper-cased input, and the leftmost match of the first
    pattern that matches is the result, whatever the engine table holds. *)
Theorem extract_engine_code_first_pattern
  (self : t) (engine_input : string) (i : nat) (p : Re.regex) (m : string) :
  nth_error all_patterns i = Some p ->
  Re.re_search p (PyStr.upper (PyStr.strip engine_input)) = Some m ->
  (forall j q, j < i -> nth_error all_patterns j = Some q ->
               Re.re_search q (PyStr.upper (PyStr.strip engine_input)) = None) ->
  evalState (extract_engine_code engine_input) self = Some m.
Proof.
  intros Hi Hm Hbefore. unfold evalState.
  rewrite extract_engine_code_run. cbn [fst].
  now rewrite (first_match_nth _ _ i p m Hi Hm Hbefore).
Qed.

Lemma extract_engine_code_first_pattern_witness :
  evalState (extract_engine_code "D16W73005025") __init__ = Some "D16W7".
Proof.
  apply (extract_engine_code_first_pattern __init__ "D16W73005025" 0
           (honda "D") "D16W7").
  - reflexivity.
  - reflexivity.
  - intros j q Hj. lia.
Defined.

(** Honda shapes come before Toyota shapes: the Honda code wins although
    the Toyota code stands first in the input. *)
Example extract_honda_before_toyota :
  evalState (extract_engine_code " 1zz-fe d16w7 ") __init__ = Some "D16W7".
Proof. reflexivity. Qed.

(** The priority order itself. *)
Example all_patterns_order :
  all_patterns =
  ([honda "D"; honda "B"; honda "H"; honda "F"; honda "K"]%char
   ++ toyota_patterns)%list.
Proof. reflexivity. Qed.

(** C5, as the code has it.  When no pattern matches the normalised input,
    the result is that input if it is a key of the engine table and
    nothing otherwise.  The code ["D16W7"] is extracted as well, but by
    the first Honda pattern. *)
Theorem extract_engine_code_fallback :
  (forall (self : t) (engine_input : string),
     (forall p, In p all_patterns ->
                Re.re_search p (PyStr.upper (PyStr.strip engine_input)) = None) ->
     evalState (extract_engine_code engine_input) self =
     if Dict.mem (PyStr.upper (PyStr.strip engine_input)) (engine_database self)
     then Some (PyStr.upper (PyStr.strip engine_input)) else None) /\
  Re.re_search (honda "D") (PyStr.upper (PyStr.strip "D16W7")) = Some "D16W7" /\
  evalState (extract_engine_code "D16W7") __init__ = Some "D16W7".
Proof.
  split; [|split; reflexivity].
  intros self engine_input Hnone. unfold evalState.
  rewrite extract_engine_code_run. cbn [fst].
  now rewrite (proj2 (first_match_none _ _) Hnone).
Qed.

Lemma extract_engine_code_fallback_witness :
  evalState (extract_engine_code "not-a-real-code") __init__ = None.
Proof.
  apply (proj1 extract_engine_code_fallback __init__ "not-a-real-code").
  intros p Hp. simpl in Hp.
  decompose [or] Hp; try contradiction; subst p; reflexivity.
Defined.

(** The hypothesis of the fallback fails at ["D16W7"]: a pattern matches
    it, so that input never reaches the table test. *)
Lemma extract_D16W7_not_by_fallback :
  ~ ((forall p, In p all_patterns ->
                Re.re_search p (PyStr.upper (PyStr.strip "D16W7")) = None) /\
     evalState (extract_engine_code "D16W7") __init__ = Some "D16W7").
Proof.
  intros [Hnone _].
  specialize (Hnone (honda "D") (or_introl eq_refl)). discriminate.
Qed.

(** With the table of [__init__] the table test never adds a code: each
    of its keys already matches a pattern. *)
Lemma engine_keys_match_a_pattern (k : string) :
  In k (Dict.keys (engine_database __init__)) ->
  first_match all_patterns k = Some k.
Proof.
  simpl. intros [<-|[<-|[<-|[<-|[<-|[]]]]]]; reflexivity.
Qed.

End EngineRuns.

(** ** Engine search results *)

Section EngineResults.

Import EnhancedEngineVINDecoder.

(** Python's left-to-right [sum] is the sum of the list. *)
Lemma py_sum_list_sum (xs : list nat) : py_sum xs = list_sum xs.
Proof.
  unfold py_sum.
  assert (H : forall acc, fold_left Nat.add xs acc = acc + list_sum xs).
  { induction xs as [|x xs IH]; intros acc; simpl; [lia|].
    rewrite IH. lia. }
  apply H.
Qed.

(** What [search_by_engine_code] returns on the object [self]. *)
Lemma search_by_engine_code_value (self : t) (engine_input : string) :
  evalState (search_by_engine_code engine_input) self =
  match evalState (extract_engine_code engine_input) self with
  | None => None
  | Some code =>
      if PyStr.falsy code then None
      else
        match Dict.get (PyStr.upper code) (engine_database self) with
        | None => None
        | Some engine_info =>
            let parts_data :=
              Dict.get_or (PyStr.upper code) [] (engine_parts_database self) in
            Some
              {| er_search_type := "engine_code";
                 er_engine_code := PyStr.upper code;
                 er_engine_info :=
                   {| ei_displacement := EngineInfo.displacement engine_info;
                      ei_type := EngineInfo.type_ engine_info;
                      ei_fuel_system := EngineInfo.fuel_system engine_info;
                      ei_valves_per_cylinder :=
                        EngineInfo.valves_per_cylinder engine_info;
                      ei_compression_ratio :=
                        EngineInfo.compression_ratio engine_info;
                      ei_max_power := EngineInfo.max_power engine_info;
                      ei_max_torque := EngineInfo.max_torque engine_info;
                      ei_fuel_type := EngineInfo.fuel_type engine_info;
                      ei_common_vehicles :=
                        EngineInfo.common_vehicles engine_info |};
                 er_parts_compatibility := parts_data;
                 er_total_parts :=
                   py_sum (map (fun category => List.length category)
                             (Dict.values parts_data));
                 er_parts_categories := Dict.keys parts_data |}
        end
  end.
Proof.
  unfold evalState, search_by_engine_code.
  rewrite run_bind, extract_engine_code_run. cbn [fst snd].
  destruct (match first_match all_patterns _ with Some _ => _ | None => _ end)
    as [code|]; [|reflexivity].
  unfold no_code. destruct (PyStr.falsy code); [reflexivity|]. cbv zeta.
  rewrite run_bind, run_gets. cbn [fst snd].
  destruct (Dict.get _ _); [|reflexivity].
  rewrite run_bind, run_gets. reflexivity.
Qed.

(** The parts mapping of a result is the entry of the parts table itself
    (in Python the very same dictionary object), or the empty mapping. *)
Lemma search_by_engine_code_parts_entry
  (self : t) (engine_input : string) (r : engine_result engine_parts) :
  evalState (search_by_engine_code engine_input) self = Some r ->
  er_parts_compatibility r =
  Dict.get_or (er_engine_code r) [] (engine_parts_database self).
Proof.
  rewrite search_by_engine_code_value.
  destruct (evalState (extract_engine_code _) _) as [code|]; [|discriminate].
  destruct (PyStr.falsy code); [discriminate|].
  destruct (Dict.get _ _); [|discriminate].
  cbv zeta. now intros [= <-].
Qed.

(** C10.  In every result of an engine search, [total_parts] is the sum
    of the sizes of the categories of [parts_compatibility], and
    [parts_categories] lists its keys, in its order. *)
Theorem search_by_engine_code_totals
  (self : t) (engine_input : string) (r : engine_result engine_parts) :
  evalState (search_by_engine_code engine_input) self = Some r ->
  er_total_parts r =
    list_sum (map (fun '(_, parts) => List.length parts)
                (er_parts_compatibility r)) /\
  er_parts_categories r = map fst (er_parts_compatibility r).
Proof.
  rewrite search_by_engine_code_value.
  destruct (evalState (extract_engine_code _) _) as [code|]; [|discriminate].
  destruct (PyStr.falsy code); [discriminate|].
  destruct (Dict.get _ _); [|discriminate].
  cbv zeta. intros [= <-]. cbn [er_total_parts er_parts_categories
                                  er_parts_compatibility].
  split; [|reflexivity].
  rewrite py_sum_list_sum. unfold Dict.values. rewrite map_map.
  f_equal. apply map_ext. now intros [k parts].
Qed.

Lemma search_by_engine_code_totals_witness :
  exists r,
    evalState (search_by_engine_code "D16W73005025") __init__ = Some r /\
    er_total_parts r = 9 /\
    er_total_parts r =
      list_sum (map (fun '(_, parts) => List.length parts)
                  (er_parts_compatibility r)) /\
    er_parts_categories r = map fst (er_parts_compatibility r) /\
    er_parts_categories r = ["engine_parts"; "brake_parts"; "maintenance_parts"].
Proof.
  destruct (evalState (search_by_engine_code "D16W73005025") __init__)
    as [r|] eqn:E; [|discriminate E].
  exists r.
  pose proof (search_by_engine_code_totals __init__ "D16W73005025" r E)
    as [Htotal Hcats].
  repeat split; try assumption.
  - vm_compute in E. injection E as <-. reflexivity.
  - vm_compute in E. injection E as <-. reflexivity.
Defined.

(** C7.  An engine that the engine table of [__init__] knows and its
    parts table does not is found all the same: the search returns its
    profile with an empty parts mapping, no category and zero parts. *)
Theorem search_by_engine_code_without_parts (code : string) (info : EngineInfo.t) :
  Dict.get code (engine_database __init__) = Some info ->
  Dict.get code (engine_parts_database __init__) = None ->
  evalState (search_by_engine_code code) __init__ =
  Some {| er_search_type := "engine_code";
          er_engine_code := code;
          er_engine_info :=
            {| ei_displacement := EngineInfo.displacement info;
               ei_type := EngineInfo.type_ info;
               ei_fuel_system := EngineInfo.fuel_system info;
               ei_valves_per_cylinder := EngineInfo.valves_per_cylinder info;
               ei_compression_ratio := EngineInfo.compression_ratio info;
               ei_max_power := EngineInfo.max_power info;
               ei_max_torque := EngineInfo.max_torque info;
               ei_fuel_type := EngineInfo.fuel_type info;
               ei_common_vehicles := EngineInfo.common_vehicles info |};
          er_parts_compatibility := [];
          er_total_parts := 0;
          er_parts_categories := [] |}.
Proof.
  cbn [engine_database engine_parts_database __init__ Dict.get].
  repeat
    match goal with
    | |- context [String.eqb code ?k] =>
        destruct (String.eqb_spec code k) as [->|_]
    end;
    try discriminate;
    intros [= <-] _; reflexivity.
Qed.

Lemma search_by_engine_code_without_parts_witness :
  exists r,
    evalState (search_by_engine_code "1ZZ-FE") __init__ = Some r /\
    ei_displacement (er_engine_info r) = "1.8L (1794cc)" /\
    er_parts_compatibility r = [] /\
    er_total_parts r = 0.
Proof.
  destruct (Dict.get "1ZZ-FE" (engine_database __init__)) as [info|] eqn:E;
    [|discriminate E].
  eexists. split.
  - apply (search_by_engine_code_without_parts "1ZZ-FE" info E). reflexivity.
  - vm_compute in E. injection E as <-. repeat split; reflexivity.
Defined.

End EngineResults.

(** ** Lookups do not write *)

Section ReadOnly.

Lemma twice_reads_only {S A} (c : state S A) :
  reads_only c ->
  forall self,
    runState (twice c) self = ((evalState c self, evalState c self), self).
Proof.
  intros Hc self. unfold twice, evalState.
  pose proof (Hc self) as H. unfold execState in H.
  rewrite run_bind, run_bind, H, H, run_ret. reflexivity.
Qed.

Lemma search_by_engine_code_reads_only (engine_input : string) :
  reads_only (EnhancedEngineVINDecoder.search_by_engine_code engine_input).
Proof. intros self. apply search_by_engine_code_state. Qed.

Lemma get_enhanced_parts_run
  (self : EnhancedJapaneseCarVINDecoder.t) (make model year engine : string) :
  runState (EnhancedJapaneseCarVINDecoder.get_enhanced_parts make model year engine)
           self =
  (let parts_data :=
     Dict.get_or year []
       (Dict.get_or (PyStr.upper model) []
          (Dict.get_or (PyStr.upper make) []
             (EnhancedJapaneseCarVINDecoder.enhanced_parts_database self))) in
   if Dict.falsy parts_data
   then Basic (EnhancedJapaneseCarVINDecoder.get_basic_parts_fallback
                 make model year engine)
   else Detailed parts_data, self).
Proof.
  unfold EnhancedJapaneseCarVINDecoder.get_enhanced_parts.
  rewrite run_bind, run_gets. cbn [fst snd]. cbv zeta.
  destruct (Dict.falsy _); reflexivity.
Qed.

Lemma get_enhanced_parts_reads_only (make model year engine : string) :
  reads_only
    (EnhancedJapaneseCarVINDecoder.get_enhanced_parts make model year engine).
Proof.
  intros self. unfold execState. now rewrite get_enhanced_parts_run.
Qed.

(** C8.  Two calls in a row of the engine search, or of the parts
    enrichment, with one input on one decoder return the same value, and
    the decoder (its engine, engine-parts and parts tables) is afterwards
    what it was before. *)
Theorem lookups_repeatable :
  (forall (self : EnhancedEngineVINDecoder.t) (engine_input : string),
     exists result,
       runState
         (twice (EnhancedEngineVINDecoder.search_by_engine_code engine_input))
         self = ((result, result), self)) /\
  (forall (self : EnhancedJapaneseCarVINDecoder.t)
          (make model year engine : string),
     exists parts,
       runState
         (twice (EnhancedJapaneseCarVINDecoder.get_enhanced_parts
                   make model year engine))
         self = ((parts, parts), self)).
Proof.
  split.
  - intros self engine_input. eexists.
    apply twice_reads_only, search_by_engine_code_reads_only.
  - intros self make model year engine. eexists.
    apply twice_reads_only, get_enhanced_parts_reads_only.
Qed.

End ReadOnly.

(** ** Parts enrichment *)

Section Enrichment.

Import EnhancedJapaneseCarVINDecoder.

(** The parts of the fallback catalog are all generic, and say which
    vehicle they were made up for. *)
Lemma basic_parts_generic (make model year engine : string) :
  Dict.keys (get_basic_parts_fallback make model year engine)
    = ["engine"; "brakes"] /\
  Forall (fun part =>
            PartInformation.part_number part = "Generic" /\
            PartInformation.brand part = "Various" /\
            PartInformation.compatibility_notes part
              = "Fits " ++ year ++ " " ++ make ++ " " ++ model)
         (all_parts (get_basic_parts_fallback make model year engine)).
Proof.
  split; [reflexivity|].
  unfold all_parts, get_basic_parts_fallback. cbn [Dict.values map snd concat app].
  repeat constructor.
Qed.

(** C2, as the code has it.  The lookup is made with the make and the
    model in upper case and the year as given.  When it finds an entry,
    that entry is the result; when it misses at any of the three levels,
    the result is the fallback catalog, with the categories [engine] and
    [brakes] and generic parts whose notes carry the year, make and model
    as given.  So TOYOTA CAMRY 2005 gets the air filter 17801-0P010, and
    TOYOTA CAMRY 1999 the fallback. *)
Theorem get_enhanced_parts_lookup :
  (forall make model year engine : string,
     let parts := evalState (get_enhanced_parts make model year engine) __init__ in
     match catalog_lookup (enhanced_parts_database __init__)
             (PyStr.upper make) (PyStr.upper model) year with
     | Some entry => parts = Detailed entry
     | None =>
         exists generic,
           parts = Basic generic /\
           Dict.keys generic = ["engine"; "brakes"] /\
           Forall (fun part =>
                     PartInformation.part_number part = "Generic" /\
                     PartInformation.brand part = "Various" /\
                     PartInformation.compatibility_notes part
                       = "Fits " ++ year ++ " " ++ make ++ " " ++ model)
                  (all_parts generic)
     end) /\
  (exists entry category part,
     evalState (get_enhanced_parts "TOYOTA" "CAMRY" "2005" "") __init__
       = Detailed entry /\
     Dict.get "engine_parts" entry = Some category /\
     Dict.get "air_filter" category = Some part /\
     PartInformation.part_number part = "17801-0P010") /\
  evalState (get_enhanced_parts "TOYOTA" "CAMRY" "1999" "") __init__
    = Basic (get_basic_parts_fallback "TOYOTA" "CAMRY" "1999" "").
Proof.
  split; [|split].
  - intros make model year engine parts. subst parts.
    unfold evalState. rewrite get_enhanced_parts_run. cbn [fst].
    unfold catalog_lookup, Dict.get_or.
    set (mk := PyStr.upper make). set (md := PyStr.upper model).
    cbn [enhanced_parts_database __init__ Dict.get].
    assert (Hmiss : exists generic,
              Basic (get_basic_parts_fallback make model year engine)
                = Basic generic /\
              Dict.keys generic = ["engine"; "brakes"] /\
              Forall (fun part =>
                        PartInformation.part_number part = "Generic" /\
                        PartInformation.brand part = "Various" /\
                        PartInformation.compatibility_notes part
                          = "Fits " ++ year ++ " " ++ make ++ " " ++ model)
                     (all_parts generic)).
    { eexists. split; [reflexivity|]. apply basic_parts_generic. }
    destruct (String.eqb mk "TOYOTA"); [|destruct (String.eqb mk "HONDA")];
      cbn [Dict.get];
      try (destruct (String.eqb md "CAMRY")); try (destruct (String.eqb md "CIVIC"));
      cbn [Dict.get];
      try (destruct (String.eqb year "2005"));
      first [reflexivity | exact Hmiss].
  - do 3 eexists. repeat split; reflexivity.
  - reflexivity.
Qed.

(** The lookup with the keys as given misses for the model name the way
    NHTSA writes it, and the enrichment still finds the entry. *)
Lemma get_enhanced_parts_model_case :
  catalog_lookup (enhanced_parts_database __init__) "TOYOTA" "Camry" "2005"
    = None /\
  forall generic,
    evalState (get_enhanced_parts "TOYOTA" "Camry" "2005" "") __init__
      <> Basic generic.
Proof.
  split; [reflexivity|]. intros generic. discriminate.
Qed.

End Enrichment.

(** ** The web front end *)

Section Routes.

Import EnhancedEngineVINDecoder.

(** A string that fails validation is not sent to NHTSA. *)
Lemma decode_vin_invalid (nhtsa : nhtsa_service)
  (self : EnhancedJapaneseCarVINDecoder.t) (vin : string) :
  EnhancedJapaneseCarVINDecoder.validate_vin vin = false ->
  runState (EnhancedJapaneseCarVINDecoder.decode_vin nhtsa vin) self
    = (Returned None, self).
Proof.
  intros H. unfold EnhancedJapaneseCarVINDecoder.decode_vin.
  now rewrite H.
Qed.

(** What the universal search answers to an input it takes for a VIN
    that is not 17 characters long. *)
Lemma search_not_17_not_engine
  (nhtsa : nhtsa_service) (self : t) (search_input : string) :
  PyStr.len (PyStr.strip search_input) <> 17 ->
  evalState (extract_engine_code (PyStr.strip search_input)) self = None ->
  evalState (search nhtsa search_input) self =
  Returned {| success := false;
              search_type := None;
              data := None;
              error := Some ("Could not decode VIN: " ++ PyStr.strip search_input);
              suggestion := Some "Ensure VIN is exactly 17 characters" |}.
Proof.
  intros Hlen Hcode. unfold evalState at 1.
  rewrite search_run. cbn [fst]. cbv zeta.
  assert (Hno : evalState (is_engine_code (PyStr.strip search_input)) self = false).
  { unfold evalState. rewrite is_engine_code_run, strip_idem. cbn [fst].
    destruct (Nat.eqb _ 17); [reflexivity|].
    now rewrite Hcode. }
  rewrite Hno. unfold evalState.
  rewrite decode_vin_invalid; [reflexivity|].
  apply validate_vin_wrong_length. exact Hlen.
Qed.

(** C6, as the code has it.  An input that, trimmed, is not empty, is not
    17 characters long and yields no engine code is taken for a VIN:
    [/search] answers with status 200, [success] false, the error "Could
    not decode VIN" followed by the input, and the advice to enter 17
    characters. *)
Theorem universal_search_unrecognised
  (nhtsa : nhtsa_service) (self : t) (payload : Dict.t string)
  (search_input : string) :
  search_input = PyStr.strip (Dict.get_or "search_input" "" payload) ->
  search_input <> "" ->
  PyStr.len search_input <> 17 ->
  evalState (extract_engine_code search_input) self = None ->
  evalState (Web.universal_search nhtsa (Returned payload)) self =
  jsonify {| success := false;
             search_type := None;
             data := None;
             error := Some ("Could not decode VIN: " ++ search_input);
             suggestion := Some "Ensure VIN is exactly 17 characters" |}.
Proof.
  intros Hin Hne Hlen Hcode.
  assert (Hs : PyStr.strip search_input = search_input)
    by (rewrite Hin; apply strip_idem).
  unfold evalState at 1. unfold Web.universal_search. cbv zeta.
  rewrite <- Hin.
  destruct search_input as [|c rest] eqn:E; [congruence|].
  cbn [PyStr.falsy]. rewrite <- E in *.
  rewrite run_bind.
  pose proof (search_not_17_not_engine nhtsa self search_input) as Hsearch.
  rewrite Hs in Hsearch. specialize (Hsearch Hlen Hcode).
  pose proof (search_run nhtsa self search_input) as Hrun.
  unfold evalState in Hsearch.
  destruct (runState (search nhtsa search_input) self) as [v self'].
  cbn [fst snd] in *. injection Hrun as _ ->. subst v.
  reflexivity.
Qed.

Lemma universal_search_unrecognised_witness :
  evalState
    (Web.universal_search offline (Returned [("search_input", "not-a-real-code")]))
    __init__ =
  jsonify {| success := false;
             search_type := None;
             data := None;
             error := Some "Could not decode VIN: not-a-real-code";
             suggestion := Some "Ensure VIN is exactly 17 characters" |}.
Proof.
  apply (universal_search_unrecognised offline __init__
           [("search_input", "not-a-real-code")] "not-a-real-code").
  - reflexivity.
  - discriminate.
  - discriminate.
  - reflexivity.
Defined.

(** At ["not-a-real-code"], which is not 17 characters long and yields no
    engine code, the error of [/search] does not contain "not found" and
    the suggestion lists no engine code. *)
Lemma universal_search_not_a_real_code :
  let r := body (evalState
                   (Web.universal_search offline
                      (Returned [("search_input", "not-a-real-code")]))
                   __init__) in
  PyStr.len "not-a-real-code" <> 17 /\
  evalState (extract_engine_code "not-a-real-code") __init__ = None /\
  ~ (success r = false /\
     (exists e, error r = Some e /\ PyStr.contains "not found" e = true) /\
     suggestion r = Some "Try: D16W7, D17A1, 1ZZ-FE, 2AZ-FE").
Proof.
  split; [discriminate|]. split; [reflexivity|].
  intros (_ & _ & H). discriminate H.
Qed.

(** "Engine code not found", with the list of example codes, is the answer
    to an input that has the shape of an engine code and is not in the
    engine table. *)
Example universal_search_unknown_engine :
  evalState (Web.universal_search offline (Returned [("search_input", "B18C1")]))
            __init__ =
  jsonify {| success := false;
             search_type := None;
             data := None;
             error := Some "Engine code not found: B18C1";
             suggestion := Some "Try: D16W7, D17A1, 1ZZ-FE, 2AZ-FE" |}.
Proof. reflexivity. Qed.

(** An empty input is refused before any search. *)
Example universal_search_empty (nhtsa : nhtsa_service) (self : t) :
  evalState (Web.universal_search nhtsa (Returned [("search_input", "   ")])) self =
  jsonify {| success := false;
             search_type := None;
             data := None;
             error := Some "Search input is required";
             suggestion := None |}.
Proof. reflexivity. Qed.

(** C9, as the code has it.  [/search] and [/decode] answer with status
    200 whatever happens, exceptions included.  [/api/engine/<code>]
    answers 200 with [success] true when the engine search finds the
    code, and 404 with [success] false when it does not. *)
Theorem http_status_codes (nhtsa : nhtsa_service) (self : t) :
  (forall request_json,
     status (evalState (Web.universal_search nhtsa request_json) self) = 200) /\
  (forall request_json,
     status (evalState (Web.decode_vin nhtsa request_json) self) = 200) /\
  (forall engine_code,
     let response := evalState (Web.api_engine_search engine_code) self in
     match evalState (search_by_engine_code engine_code) self with
     | Some _ => status response = 200 /\ eb_success (body response) = true
     | None => status response = 404 /\ eb_success (body response) = false
     end).
Proof.
  split; [|split].
  - intros [payload|e]; [|reflexivity].
    unfold evalState, Web.universal_search. cbv zeta.
    destruct (PyStr.falsy _); [reflexivity|].
    rewrite run_bind.
    destruct (fst (runState (search nhtsa _) self)); reflexivity.
  - intros [payload|e]; [|reflexivity].
    unfold evalState, Web.decode_vin. cbv zeta.
    rewrite run_bind.
    destruct (fst (runState (search nhtsa _) self)) as [result|e];
      [|reflexivity].
    destruct (success result); [|reflexivity].
    destruct (data result) as [[engine_data|vehicle_info]|]; reflexivity.
  - intros engine_code response. subst response.
    unfold evalState, Web.api_engine_search.
    rewrite run_bind.
    destruct (fst (runState (search_by_engine_code engine_code) self));
      split; reflexivity.
Qed.

(** An engine code that is not in the table gets status 404, not 200. *)
Lemma api_engine_search_unknown_code :
  let response := evalState (Web.api_engine_search "B18C1") __init__ in
  Dict.mem "B18C1" (engine_database __init__) = false /\
  eb_success (body response) = false /\
  status response = 404 /\
  status response <> 200.
Proof. repeat split; try reflexivity. discriminate. Qed.

End Routes.

(** * Further properties *)

(** ** Case and white space *)

Section Normalisation.

Import PyStr.

Lemma upper_char_idem (c : ascii) : upper_char (upper_char c) = upper_char c.
Proof.
  destruct c as [[] [] [] [] [] [] [] []]; reflexivity.
Qed.

Lemma is_space_upper_char (c : ascii) : is_space (upper_char c) = is_space c.
Proof.
  destruct c as [[] [] [] [] [] [] [] []]; reflexivity.
Qed.

Lemma upper_idem (s : string) : upper (upper s) = upper s.
Proof.
  induction s as [|c s IH]; simpl; [reflexivity|].
  now rewrite upper_char_idem, IH.
Qed.

Lemma lstrip_upper (s : string) : lstrip (upper s) = upper (lstrip s).
Proof.
  induction s as [|c s IH]; simpl; [reflexivity|].
  rewrite is_space_upper_char. destruct (is_space c); [exact IH | reflexivity].
Qed.

Lemma rstrip_upper (s : string) : rstrip (upper s) = upper (rstrip s).
Proof.
  induction s as [|c s IH]; simpl; [reflexivity|].
  rewrite IH, is_space_upper_char.
  destruct (rstrip s); simpl; [destruct (is_space c)|]; reflexivity.
Qed.

Lemma strip_upper (s : string) : strip (upper s) = upper (strip s).
Proof. unfold strip. now rewrite lstrip_upper, rstrip_upper. Qed.

(** Normalising a normalised input changes nothing. *)
Lemma normalise_idem (s : string) :
  upper (strip (upper (strip s))) = upper (strip s).
Proof. now rewrite strip_upper, strip_idem, upper_idem. Qed.

End Normalisation.

Section Extraction.

Import EnhancedEngineVINDecoder.

(** X1.  The extractor sees its input only through the trimmed,
    upper-cased text: the letter case of the input and the white space
    around it make no difference to the result. *)
Theorem extract_engine_code_ignores_case_and_margin
  (self : t) (engine_input : string) :
  evalState (extract_engine_code (PyStr.upper engine_input)) self
    = evalState (extract_engine_code engine_input) self /\
  evalState (extract_engine_code (PyStr.strip engine_input)) self
    = evalState (extract_engine_code engine_input) self /\
  evalState (extract_engine_code (PyStr.upper (PyStr.strip engine_input))) self
    = evalState (extract_engine_code engine_input) self.
Proof.
  unfold evalState. rewrite !extract_engine_code_run. cbn [fst].
  rewrite normalise_idem, strip_idem, strip_upper, upper_idem. auto.
Qed.

End Extraction.

(** ** What a pattern can match *)

Section MatchFacts.

Import Re.

Lemma string_app_assoc (a b c : string) :
  ((a ++ b) ++ c = a ++ (b ++ c))%string.
Proof. induction a as [|x a IH]; simpl; [reflexivity | now rewrite IH]. Qed.

(** A match at the head of the subject is a prefix of it, and its length
    lies between the bounds of the pattern. *)
Lemma match_here_prefix (p : regex) :
  forall bos s m,
    match_here p bos s = Some m ->
    (exists rest, s = (m ++ rest)%string) /\
    regex_min p <= String.length m <= regex_max p.
Proof.
  unfold regex_min, regex_max.
  induction p as [|i p IH]; intros bos s m;
    cbn [match_here map list_sum fold_right].
  - intros [= <-]. split; [now exists s | simpl; lia].
  - destruct i as [k|k|n k| |]; cbn [item_min item_max];
      fold (list_sum (map item_min p)); fold (list_sum (map item_max p)).
    + destruct s as [|c s]; [discriminate|].
      destruct (class_mem k c); [|discriminate].
      destruct (match_here p false s) as [m'|] eqn:E; [|discriminate].
      intros [= <-]. destruct (IH _ _ _ E) as [[rest ->] Hlen].
      split; [now exists rest | simpl; lia].
    + assert (Hskip : match_here p bos s = Some m ->
                      (exists rest, s = (m ++ rest)%string) /\
                      0 + list_sum (map item_min p) <= String.length m
                        <= 1 + list_sum (map item_max p)).
      { intros E. destruct (IH _ _ _ E) as [Hpre Hlen]. split; [exact Hpre | lia]. }
      destruct s as [|c s]; [exact Hskip|].
      destruct (class_mem k c); [|exact Hskip].
      destruct (match_here p false s) as [m'|] eqn:E; [|exact Hskip].
      intros [= <-]. destruct (IH _ _ _ E) as [[rest ->] Hlen].
      split; [now exists rest | simpl; lia].
    + destruct (take_class n k s) as [[m1 r]|] eqn:E1; [|discriminate].
      destruct (match_here p (bos && Nat.eqb n 0) r) as [m2|] eqn:E2;
        [|discriminate].
      intros [= <-].
      destruct (take_class_sound _ _ _ _ _ E1) as (-> & Hn & _).
      destruct (IH _ _ _ E2) as [[rest ->] Hlen].
      split.
      * exists rest. now rewrite string_app_assoc.
      * rewrite string_app_length. lia.
    + destruct bos; [|discriminate]. intros E.
      destruct (IH _ _ _ E) as [Hpre Hlen]. split; [exact Hpre | lia].
    + destruct (at_eol s); [|discriminate]. intros E.
      destruct (IH _ _ _ E) as [Hpre Hlen]. split; [exact Hpre | lia].
Qed.

(** What [re.search] returns occurs in the subject. *)
Lemma re_search_occurs (p : regex) (s m : string) :
  re_search p s = Some m ->
  occurs_in m s /\ regex_min p <= String.length m <= regex_max p.
Proof.
  unfold re_search. generalize true as bos. revert m.
  induction s as [|c s IH]; intros m bos; cbn [search_from].
  - destruct (match_here p bos "") as [m'|] eqn:E; [|discriminate].
    intros [= <-]. destruct (match_here_prefix _ _ _ _ E) as [[rest Hs] Hlen].
    split; [|exact Hlen]. exists ""%string, rest. exact Hs.
  - destruct (match_here p bos (String c s)) as [m'|] eqn:E.
    + intros [= <-]. destruct (match_here_prefix _ _ _ _ E) as [[rest Hs] Hlen].
      split; [|exact Hlen]. exists ""%string, rest. exact Hs.
    + intros H. destruct (IH _ _ H) as [(before & after & ->) Hlen].
      split; [|exact Hlen]. now exists (String c before), after.
Qed.

End MatchFacts.

Section ExtractionShape.

Import EnhancedEngineVINDecoder.

Lemma first_match_occurs (s m : string) :
  forall patterns,
    first_match patterns s = Some m ->
    exists p, In p patterns /\ Re.re_search p s = Some m.
Proof.
  induction patterns as [|p ps IH]; simpl; [discriminate|].
  destruct (Re.re_search p s) as [m'|] eqn:E.
  - intros [= <-]. exists p. auto.
  - intros H. destruct (IH H) as (q & Hq & Hm). exists q. auto.
Qed.

Lemma all_patterns_bounds (p : Re.regex) :
  In p all_patterns -> 4 <= regex_min p /\ regex_max p <= 6.
Proof.
  simpl. intros H.
  decompose [or] H; try contradiction; subst p; vm_compute; split; lia.
Qed.

(** X2.  The extractor makes nothing up: the code it returns stands in
    the trimmed, upper-cased input, as a run of consecutive characters. *)
Theorem extract_engine_code_occurs
  (self : t) (engine_input code : string) :
  evalState (extract_engine_code engine_input) self = Some code ->
  occurs_in code (PyStr.upper (PyStr.strip engine_input)).
Proof.
  unfold evalState. rewrite extract_engine_code_run. cbn [fst].
  destruct (first_match all_patterns _) as [m|] eqn:E.
  - intros [= <-]. destruct (first_match_occurs _ _ _ E) as (p & _ & Hm).
    apply (re_search_occurs _ _ _ Hm).
  - destruct (Dict.mem _ _); [|discriminate]. intros [= <-].
    exists ""%string, ""%string. simpl. now rewrite string_app_empty.
Qed.

Lemma extract_engine_code_occurs_witness :
  occurs_in "D16W7" (PyStr.upper (PyStr.strip " code d16w73005025 ")).
Proof.
  apply (extract_engine_code_occurs __init__ " code d16w73005025 " "D16W7").
  reflexivity.
Defined.

(** X3.  A code found by a pattern has four to six characters; a code of
    any other length can only be the whole normalised input, found as a
    key of the engine table.  With the table of [__init__] every code has
    four to six characters, so none has the 17 of a VIN. *)
Theorem extract_engine_code_length
  (self : t) (engine_input code : string) :
  evalState (extract_engine_code engine_input) self = Some code ->
  (4 <= PyStr.len code <= 6 \/
   (code = PyStr.upper (PyStr.strip engine_input) /\
    Dict.mem code (engine_database self) = true)) /\
  (self = __init__ -> 4 <= PyStr.len code <= 6).
Proof.
  unfold evalState. rewrite extract_engine_code_run. cbn [fst].
  destruct (first_match all_patterns _) as [m|] eqn:E.
  - intros [= <-]. destruct (first_match_occurs _ _ _ E) as (p & Hp & Hm).
    destruct (re_search_occurs _ _ _ Hm) as [_ Hlen].
    destruct (all_patterns_bounds p Hp) as [Hmin Hmax].
    unfold PyStr.len. split; [left|intros _]; lia.
  - destruct (Dict.mem _ (engine_database self)) eqn:Hmem; [|discriminate].
    intros [= <-]. split; [right; auto|].
    intros ->. revert Hmem. unfold Dict.mem.
    cbn [engine_database __init__ Dict.get].
    repeat
      match goal with
      | |- context [String.eqb ?a ?k] =>
          destruct (String.eqb_spec a k) as [->|_]
      end;
      try discriminate; intros _; vm_compute; split; lia.
Qed.

Lemma extract_engine_code_length_witness :
  4 <= PyStr.len "2AZ-FE" <= 6.
Proof.
  apply (extract_engine_code_length __init__ "engine 2az-fe (camry)" "2AZ-FE");
    reflexivity.
Defined.

End ExtractionShape.

(** ** Decoding a VIN *)

Section DecodeVin.

Import EnhancedJapaneseCarVINDecoder.

Variable nhtsa : nhtsa_service.

(** The three ways [decode_vin] can end once the VIN is valid and NHTSA
    has answered with some data. *)
Lemma decode_vin_run (self : t) (vin : string) :
  runState (decode_vin nhtsa vin) self =
  (if negb (validate_vin vin) then Returned None
   else
     match decode_vin_nhtsa nhtsa vin with
     | Raised e => Raised e
     | Returned decoded_data =>
         if Dict.falsy decoded_data then Returned None
         else
           let make := Dict.get_or "Make" "" decoded_data in
           let model := Dict.get_or "Model" "" decoded_data in
           let year := Dict.get_or "Model Year" "" decoded_data in
           let engine := Dict.get_or "Engine Model" "" decoded_data in
           match get_recalls nhtsa vin with
           | Raised e => Raised e
           | Returned recalls =>
               Returned (Some
                 {| EnhancedVehicleInfo.vin := vin;
                    EnhancedVehicleInfo.make := make;
                    EnhancedVehicleInfo.model := model;
                    EnhancedVehicleInfo.year := year;
                    EnhancedVehicleInfo.engine := engine;
                    EnhancedVehicleInfo.engine_code :=
                      Dict.get_or "Engine Configuration" "" decoded_data;
                    EnhancedVehicleInfo.transmission :=
                      Dict.get_or "Transmission Style" "" decoded_data;
                    EnhancedVehicleInfo.transmission_code :=
                      Dict.get_or "Transmission" "" decoded_data;
                    EnhancedVehicleInfo.drive_type :=
                      Dict.get_or "Drive Type" "" decoded_data;
                    EnhancedVehicleInfo.body_style :=
                      Dict.get_or "Body Class" "" decoded_data;
                    EnhancedVehicleInfo.trim := Dict.get_or "Trim" "" decoded_data;
                    EnhancedVehicleInfo.fuel_type :=
                      Dict.get_or "Fuel Type - Primary" "" decoded_data;
                    EnhancedVehicleInfo.doors := Dict.get_or "Doors" "" decoded_data;
                    EnhancedVehicleInfo.seats :=
                      Dict.get_or "Number of Seats" "" decoded_data;
                    EnhancedVehicleInfo.parts_compatibility :=
                      evalState (get_enhanced_parts make model year engine) self;
                    EnhancedVehicleInfo.recalls := recalls |})
           end
     end, self).
Proof.
  unfold decode_vin.
  destruct (negb (validate_vin vin)); [reflexivity|].
  destruct (decode_vin_nhtsa nhtsa vin) as [decoded_data|e]; [|reflexivity].
  destruct (Dict.falsy decoded_data); [reflexivity|]. cbv zeta.
  rewrite run_bind. unfold evalState. rewrite get_enhanced_parts_run.
  cbn [fst snd].
  destruct (get_recalls nhtsa vin); reflexivity.
Qed.

(** X4.  [decode_vin] returns nothing exactly when the VIN fails
    validation or NHTSA has no data for it; a VIN that fails validation
    is not sent to NHTSA at all, so the answer is the same whatever the
    service would have said. *)
Theorem decode_vin_none (self : t) (vin : string) :
  (evalState (decode_vin nhtsa vin) self = Returned None <->
   validate_vin vin = false \/ decode_vin_nhtsa nhtsa vin = Returned []) /\
  (validate_vin vin = false ->
   forall other : nhtsa_service,
     evalState (decode_vin other vin) self = Returned None).
Proof.
  split.
  - unfold evalState. rewrite decode_vin_run. cbn [fst].
    destruct (validate_vin vin); cbn [negb]; [|tauto].
    destruct (decode_vin_nhtsa nhtsa vin) as [[|entry data]|e]; cbn [Dict.falsy].
    + tauto.
    + cbv zeta. destruct (get_recalls nhtsa vin);
        split; try discriminate; intros [H|H]; discriminate.
    + split; [discriminate | intros [H|H]; discriminate].
  - intros H other. unfold evalState, decode_vin. now rewrite H.
Qed.

(** How a vehicle that [decode_vin] returns came about. *)
Lemma decode_vin_inv
  (self : t) (vin : string) (vehicle_info : EnhancedVehicleInfo.t) :
  evalState (decode_vin nhtsa vin) self = Returned (Some vehicle_info) ->
  exists decoded_data recalls,
    validate_vin vin = true /\
    decode_vin_nhtsa nhtsa vin = Returned decoded_data /\
    Dict.falsy decoded_data = false /\
    get_recalls nhtsa vin = Returned recalls /\
    EnhancedVehicleInfo.vin vehicle_info = vin /\
    EnhancedVehicleInfo.make vehicle_info = Dict.get_or "Make" "" decoded_data /\
    EnhancedVehicleInfo.model vehicle_info = Dict.get_or "Model" "" decoded_data /\
    EnhancedVehicleInfo.year vehicle_info
      = Dict.get_or "Model Year" "" decoded_data /\
    EnhancedVehicleInfo.engine vehicle_info
      = Dict.get_or "Engine Model" "" decoded_data /\
    EnhancedVehicleInfo.recalls vehicle_info = recalls /\
    EnhancedVehicleInfo.parts_compatibility vehicle_info =
      evalState
        (get_enhanced_parts
           (Dict.get_or "Make" "" decoded_data)
           (Dict.get_or "Model" "" decoded_data)
           (Dict.get_or "Model Year" "" decoded_data)
           (Dict.get_or "Engine Model" "" decoded_data))
        self.
Proof.
  unfold evalState at 1. rewrite decode_vin_run. cbn [fst].
  destruct (validate_vin vin); cbn [negb]; [|discriminate].
  destruct (decode_vin_nhtsa nhtsa vin) as [decoded_data|e]; [|discriminate].
  destruct (Dict.falsy decoded_data) eqn:Hdata; [discriminate|]. cbv zeta.
  destruct (get_recalls nhtsa vin) as [recalls|e]; [|discriminate].
  intros [= <-]. exists decoded_data, recalls. cbn. repeat split; auto.
Qed.

(** X5.  A vehicle that [decode_vin] returns carries the VIN it was asked
    for, that VIN is valid, NHTSA had data for it, and its parts are the
    ones [get_enhanced_parts] gives for the make, model, year and engine
    of that very vehicle. *)
Theorem decode_vin_some
  (self : t) (vin : string) (vehicle_info : EnhancedVehicleInfo.t) :
  evalState (decode_vin nhtsa vin) self = Returned (Some vehicle_info) ->
  EnhancedVehicleInfo.vin vehicle_info = vin /\
  validate_vin vin = true /\
  (exists decoded_data,
     decode_vin_nhtsa nhtsa vin = Returned decoded_data /\
     decoded_data <> []) /\
  EnhancedVehicleInfo.parts_compatibility vehicle_info =
    evalState
      (get_enhanced_parts
         (EnhancedVehicleInfo.make vehicle_info)
         (EnhancedVehicleInfo.model vehicle_info)
         (EnhancedVehicleInfo.year vehicle_info)
         (EnhancedVehicleInfo.engine vehicle_info))
      self.
Proof.
  intros H.
  destruct (decode_vin_inv _ _ _ H)
    as (decoded_data & recalls & Hvalid & Hdecoded & Hdata & _
        & Hvin & Hmake & Hmodel & Hyear & Hengine & _ & Hparts).
  rewrite Hmake, Hmodel, Hyear, Hengine.
  repeat split; auto.
  exists decoded_data. split; [exact Hdecoded|].
  intros ->. discriminate.
Qed.

Lemma decode_vin_state (self : t) (vin : string) :
  snd (runState (decode_vin nhtsa vin) self) = self.
Proof. now rewrite decode_vin_run. Qed.

End DecodeVin.

Lemma decode_vin_none_witness :
  evalState
    (EnhancedJapaneseCarVINDecoder.decode_vin camry_service "4T1BE32K25U12345O")
    EnhancedJapaneseCarVINDecoder.__init__ = Returned None.
Proof.
  apply (proj2 (decode_vin_none offline EnhancedJapaneseCarVINDecoder.__init__
                  "4T1BE32K25U12345O")).
  reflexivity.
Defined.

Lemma decode_vin_some_witness :
  exists vehicle_info entry,
    evalState
      (EnhancedJapaneseCarVINDecoder.decode_vin camry_service "4T1BE32K25U123456")
      EnhancedJapaneseCarVINDecoder.__init__ = Returned (Some vehicle_info) /\
    EnhancedVehicleInfo.vin vehicle_info = "4T1BE32K25U123456" /\
    EnhancedVehicleInfo.parts_compatibility vehicle_info = Detailed entry.
Proof.
  eexists. eexists.
  assert (E : evalState
                (EnhancedJapaneseCarVINDecoder.decode_vin camry_service
                   "4T1BE32K25U123456")
                EnhancedJapaneseCarVINDecoder.__init__
              = Returned (Some _)) by reflexivity.
  split; [exact E|].
  destruct (decode_vin_some camry_service _ _ _ E) as (Hvin & _ & _ & Hparts).
  split; [exact Hvin|]. rewrite Hparts. reflexivity.
Defined.

(** ** The universal search *)

Section SearchFacts.

Import EnhancedEngineVINDecoder.

Lemma search_by_engine_code_strip (self : t) (engine_input : string) :
  evalState (search_by_engine_code (PyStr.strip engine_input)) self
    = evalState (search_by_engine_code engine_input) self.
Proof.
  rewrite !search_by_engine_code_value.
  unfold evalState. rewrite !extract_engine_code_run. cbn [fst].
  now rewrite strip_idem.
Qed.

Lemma is_engine_code_strip (self : t) (input_string : string) :
  evalState (is_engine_code (PyStr.strip input_string)) self
    = evalState (is_engine_code input_string) self.
Proof.
  unfold evalState. rewrite !is_engine_code_run. cbn [fst].
  now rewrite !strip_idem.
Qed.

(** The code of a result is a key of the engine table. *)
Lemma search_by_engine_code_key
  (self : t) (engine_input : string) (r : engine_result engine_parts) :
  evalState (search_by_engine_code engine_input) self = Some r ->
  Dict.mem (er_engine_code r) (engine_database self) = true.
Proof.
  rewrite search_by_engine_code_value.
  destruct (evalState (extract_engine_code _) _) as [code|]; [|discriminate].
  destruct (PyStr.falsy code); [discriminate|].
  destruct (Dict.get _ _) eqn:E; [|discriminate].
  cbv zeta. intros [= <-]. cbn [er_engine_code]. unfold Dict.mem. now rewrite E.
Qed.

(** X6.  The engine search finds something exactly when the code the
    extractor returns is not empty and, in upper case, is a key of the
    engine table; the result then carries that key as its code. *)
Theorem search_by_engine_code_found (self : t) (engine_input : string) :
  ((exists r, evalState (search_by_engine_code engine_input) self = Some r) <->
   exists code,
     evalState (extract_engine_code engine_input) self = Some code /\
     code <> "" /\
     Dict.mem (PyStr.upper code) (engine_database self) = true) /\
  (forall r code,
     evalState (search_by_engine_code engine_input) self = Some r ->
     evalState (extract_engine_code engine_input) self = Some code ->
     er_engine_code r = PyStr.upper code /\
     Dict.mem (er_engine_code r) (engine_database self) = true).
Proof.
  rewrite search_by_engine_code_value. unfold Dict.mem.
  destruct (evalState (extract_engine_code engine_input) self) as [code|].
  - destruct (PyStr.falsy code) eqn:Hfalsy.
    + assert (Hempty : code = "") by (destruct code; [reflexivity | discriminate]).
      split.
      * split; [intros [r H]; discriminate|].
        intros (code' & [= <-] & Hne & _). contradiction.
      * intros r code' H. discriminate.
    + assert (Hne : code <> "") by (intros ->; discriminate).
      destruct (Dict.get (PyStr.upper code) (engine_database self)) eqn:E.
      * split.
        -- split; [|eauto]. intros _. exists code.
           rewrite E. auto.
        -- intros r code' [= <-] [= <-]. cbn [er_engine_code].
           rewrite E. auto.
      * split.
        -- split; [intros [r H]; discriminate|].
           intros (code' & [= <-] & _ & H). rewrite E in H. discriminate.
        -- intros r code' H. discriminate.
  - split.
    + split; [intros [r H]; discriminate|]. intros (code & H & _). discriminate.
    + intros r code H. discriminate.
Qed.

Variable nhtsa : nhtsa_service.

(** The four ways [search] can return, and what decides between them. *)
Lemma search_inv
  (self : t) (search_input : string) (r : search_result engine_parts) :
  evalState (search nhtsa search_input) self = Returned r ->
  let given := PyStr.strip search_input in
  (evalState (is_engine_code search_input) self = true /\
   ((exists found,
       evalState (search_by_engine_code search_input) self = Some found /\
       r = engine_hit found) \/
    (evalState (search_by_engine_code search_input) self = None /\
     r = engine_miss given))) \/
  (evalState (is_engine_code search_input) self = false /\
   ((exists vehicle_info,
       evalState (EnhancedJapaneseCarVINDecoder.decode_vin nhtsa given)
                 EnhancedJapaneseCarVINDecoder.__init__
         = Returned (Some vehicle_info) /\
       r = vin_hit vehicle_info) \/
    (evalState (EnhancedJapaneseCarVINDecoder.decode_vin nhtsa given)
               EnhancedJapaneseCarVINDecoder.__init__ = Returned None /\
     r = vin_miss given))).
Proof.
  unfold evalState at 1. rewrite search_run. cbn [fst]. cbv zeta.
  rewrite is_engine_code_strip, search_by_engine_code_strip.
  destruct (evalState (is_engine_code search_input) self).
  - destruct (evalState (search_by_engine_code search_input) self)
      as [found|]; intros [= <-]; left; split; eauto.
  - destruct (evalState (EnhancedJapaneseCarVINDecoder.decode_vin _ _) _)
      as [[vehicle_info|]|e]; intros [= <-]; right; split; eauto.
Qed.

Lemma is_engine_code_not_17 (self : t) (input_string : string) :
  evalState (is_engine_code input_string) self = true ->
  PyStr.len (PyStr.strip input_string) <> 17.
Proof.
  unfold evalState. rewrite is_engine_code_run. cbn [fst].
  destruct (Nat.eqb_spec (PyStr.len (PyStr.strip input_string)) 17);
    [discriminate | auto].
Qed.

End SearchFacts.

(** The cases of [search_inv], named. *)
Ltac search_cases H :=
  apply search_inv in H; cbv zeta in H;
  destruct H as [[Hengine [(found & Hfound & ->)|[Hfound ->]]]
                |[Hengine [(vehicle & Hdecode & ->)|[Hdecode ->]]]].

Section SearchResults.

Import EnhancedEngineVINDecoder.

Variable nhtsa : nhtsa_service.

(** X7.  A result of [search] that holds engine data is a success of type
    [engine_code]; the trimmed input was not 17 characters long, the data
    are what the engine search returns for the input, and their code is a
    key of the engine table. *)
Theorem search_engine_data
  (self : t) (search_input : string)
  (r : search_result engine_parts) (e : engine_result engine_parts) :
  evalState (search nhtsa search_input) self = Returned r ->
  data r = Some (EngineData e) ->
  success r = true /\
  search_type r = Some "engine_code" /\
  PyStr.len (PyStr.strip search_input) <> 17 /\
  evalState (search_by_engine_code search_input) self = Some e /\
  Dict.mem (er_engine_code e) (engine_database self) = true.
Proof.
  intros H. search_cases H; cbn [data engine_hit engine_miss vin_hit vin_miss];
    try discriminate.
  intros [= <-]. cbn [success search_type].
  repeat split; try reflexivity.
  - now apply is_engine_code_not_17 in Hengine.
  - exact Hfound.
  - apply (search_by_engine_code_key _ _ _ Hfound).
Qed.

(** X8.  A result of [search] that holds a vehicle is a success of type
    [vin]; the trimmed input is the vehicle's VIN, it passes
    [validate_vin], and so it has 17 characters. *)
Theorem search_vin_data
  (self : t) (search_input : string)
  (r : search_result engine_parts) (v : EnhancedVehicleInfo.t) :
  evalState (search nhtsa search_input) self = Returned r ->
  data r = Some (VinData v) ->
  success r = true /\
  search_type r = Some "vin" /\
  EnhancedVehicleInfo.vin v = PyStr.strip search_input /\
  EnhancedJapaneseCarVINDecoder.validate_vin (PyStr.strip search_input) = true /\
  PyStr.len (PyStr.strip search_input) = 17.
Proof.
  intros H. search_cases H; cbn [data engine_hit engine_miss vin_hit vin_miss];
    try discriminate.
  intros [= <-].
  destruct (decode_vin_inv _ _ _ _ Hdecode)
    as (_ & _ & Hvalid & _ & _ & _ & Hvin & _).
  cbn [success search_type]. repeat split; try assumption; try reflexivity.
  now apply validate_vin_iff in Hvalid.
Qed.

(** X9.  An input that [is_engine_code] accepts is answered from the
    tables alone: the search returns (it does not raise), and the answer
    is the same whatever the NHTSA service would do. *)
Theorem search_engine_branch_offline (self : t) (search_input : string) :
  evalState (is_engine_code search_input) self = true ->
  (exists r, evalState (search nhtsa search_input) self = Returned r) /\
  forall other : nhtsa_service,
    evalState (search other search_input) self
      = evalState (search nhtsa search_input) self.
Proof.
  intros Hengine.
  assert (Hany : forall service : nhtsa_service,
            evalState (search service search_input) self =
            match evalState (search_by_engine_code (PyStr.strip search_input))
                    self with
            | Some result => Returned (engine_hit result)
            | None => Returned (engine_miss (PyStr.strip search_input))
            end).
  { intros service. unfold evalState at 1. rewrite search_run.
    cbn [fst]. cbv zeta. now rewrite is_engine_code_strip, Hengine. }
  split.
  - rewrite Hany. destruct (evalState (search_by_engine_code _) self); eauto.
  - intros other. now rewrite !Hany.
Qed.

(** X10.  White space around the input makes no difference to [search]. *)
Theorem search_ignores_margin (self : t) (search_input : string) :
  evalState (search nhtsa (PyStr.strip search_input)) self
    = evalState (search nhtsa search_input) self.
Proof.
  unfold evalState at 1 2. rewrite !search_run. cbn [fst]. cbv zeta.
  now rewrite strip_idem.
Qed.

(** X20.  A failure of [search] is one of two: "Engine code not found"
    with the list of example codes, when [is_engine_code] accepted the
    input and the engine search found nothing; or "Could not decode VIN"
    with the advice on 17 characters, when it did not accept it and
    [decode_vin] returned nothing.  Both quote the trimmed input. *)
Theorem search_failure
  (self : t) (search_input : string) (r : search_result engine_parts) :
  evalState (search nhtsa search_input) self = Returned r ->
  success r = false ->
  let given := PyStr.strip search_input in
  (evalState (is_engine_code search_input) self = true /\
   evalState (search_by_engine_code search_input) self = None /\
   error r = Some ("Engine code not found: " ++ given) /\
   suggestion r = Some "Try: D16W7, D17A1, 1ZZ-FE, 2AZ-FE") \/
  (evalState (is_engine_code search_input) self = false /\
   evalState (EnhancedJapaneseCarVINDecoder.decode_vin nhtsa given)
             EnhancedJapaneseCarVINDecoder.__init__ = Returned None /\
   error r = Some ("Could not decode VIN: " ++ given) /\
   suggestion r = Some "Ensure VIN is exactly 17 characters").
Proof.
  intros H. search_cases H;
    cbn [success engine_hit engine_miss vin_hit vin_miss];
    try discriminate; intros _; cbv zeta; cbn [error suggestion].
  - left. auto.
  - right. auto.
Qed.

End SearchResults.

Lemma search_engine_data_witness :
  exists r e,
    evalState (EnhancedEngineVINDecoder.search offline " d16w73005025 ")
              EnhancedEngineVINDecoder.__init__ = Returned r /\
    data r = Some (EngineData e) /\
    search_type r = Some "engine_code" /\
    er_engine_code e = "D16W7".
Proof.
  destruct (evalState (EnhancedEngineVINDecoder.search offline " d16w73005025 ")
                      EnhancedEngineVINDecoder.__init__)
    as [r|err] eqn:E; [|discriminate E].
  destruct (data r) as [[e|v]|] eqn:D;
    [|exfalso; vm_compute in E; injection E as <-; discriminate D ..].
  exists r, e. split; [reflexivity|]. split; [exact D|].
  destruct (search_engine_data offline _ _ _ _ E D) as (_ & Htype & _).
  split; [exact Htype|].
  vm_compute in E. injection E as <-. injection D as <-. reflexivity.
Defined.

Lemma search_vin_data_witness :
  exists r v,
    evalState (EnhancedEngineVINDecoder.search camry_service " 4T1BE32K25U123456 ")
              EnhancedEngineVINDecoder.__init__ = Returned r /\
    data r = Some (VinData v) /\
    EnhancedVehicleInfo.vin v = "4T1BE32K25U123456".
Proof.
  destruct (evalState
              (EnhancedEngineVINDecoder.search camry_service " 4T1BE32K25U123456 ")
              EnhancedEngineVINDecoder.__init__)
    as [r|err] eqn:E; [|discriminate E].
  destruct (data r) as [[e|v]|] eqn:D;
    [exfalso; vm_compute in E; injection E as <-; discriminate D
    | | exfalso; vm_compute in E; injection E as <-; discriminate D].
  exists r, v. split; [reflexivity|]. split; [exact D|].
  destruct (search_vin_data camry_service _ _ _ _ E D) as (_ & _ & Hvin & _).
  exact Hvin.
Defined.

Lemma search_engine_branch_offline_witness :
  evalState (EnhancedEngineVINDecoder.search camry_service "B18C1")
            EnhancedEngineVINDecoder.__init__
  = evalState (EnhancedEngineVINDecoder.search offline "B18C1")
              EnhancedEngineVINDecoder.__init__.
Proof.
  apply (proj2 (search_engine_branch_offline offline
                  EnhancedEngineVINDecoder.__init__ "B18C1" eq_refl)).
Defined.

Lemma search_failure_witness :
  exists r,
    evalState (EnhancedEngineVINDecoder.search offline " k20a2 ")
              EnhancedEngineVINDecoder.__init__ = Returned r /\
    error r = Some "Engine code not found: k20a2".
Proof.
  destruct (evalState (EnhancedEngineVINDecoder.search offline " k20a2 ")
                      EnhancedEngineVINDecoder.__init__)
    as [r|err] eqn:E; [|discriminate E].
  exists r. split; [reflexivity|].
  assert (F : success r = false)
    by (vm_compute in E; injection E as <-; reflexivity).
  destruct (search_failure offline _ _ _ E F)
    as [(_ & _ & Herror & _)|(Hengine & _)]; [exact Herror | discriminate Hengine].
Defined.

(** ** Reference lookups and feature lists *)

Section Reference.

Import VinReference.

(** X11.  The make and the model are looked up in upper case, so their
    letter case does not matter to the common issues, the maintenance
    schedule, the specifications, or to which detailed parts entry is
    found. *)
Theorem lookups_ignore_case
  (reference : VinReference.t) (self : EnhancedJapaneseCarVINDecoder.t)
  (make model year engine : string) :
  get_common_issues (PyStr.upper make) (PyStr.upper model) year
    = get_common_issues make model year /\
  get_maintenance_schedule reference (PyStr.upper make) (PyStr.upper model) year
    = get_maintenance_schedule reference make model year /\
  get_vehicle_specifications reference
      (PyStr.upper make) (PyStr.upper model) year engine
    = get_vehicle_specifications reference make model year engine /\
  forall entry,
    evalState
      (EnhancedJapaneseCarVINDecoder.get_enhanced_parts
         (PyStr.upper make) (PyStr.upper model) year engine) self
      = Detailed entry <->
    evalState
      (EnhancedJapaneseCarVINDecoder.get_enhanced_parts make model year engine)
      self = Detailed entry.
Proof.
  unfold get_common_issues, get_maintenance_schedule,
    get_vehicle_specifications, evalState.
  rewrite !upper_idem. repeat split; try reflexivity.
  - rewrite !get_enhanced_parts_run, !upper_idem. cbn [fst]. cbv zeta.
    destruct (Dict.falsy _); [discriminate | auto].
  - rewrite !get_enhanced_parts_run, !upper_idem. cbn [fst]. cbv zeta.
    destruct (Dict.falsy _); [discriminate | auto].
Qed.

(** The loop that appends a name for each key with a value is a filter. *)
Lemma append_loop_filter {K} (name : K -> string) (keep : K -> bool) (l : list K) :
  forall acc,
    fold_left (fun acc k => if keep k then (acc ++ [name k])%list else acc) l acc
    = (acc ++ map name (filter keep l))%list.
Proof.
  induction l as [|k l IH]; intros acc; simpl.
  - now rewrite app_nil_r.
  - rewrite IH. destruct (keep k); simpl; [|reflexivity].
    now rewrite <- app_assoc.
Qed.

Lemma append_loop_filter_pairs (keep : string -> bool)
  (l : list (string * string)) :
  forall acc,
    fold_left
      (fun acc '(key, name) => if keep key then (acc ++ [name])%list else acc)
      l acc
    = (acc ++ map snd (filter (fun entry => keep (fst entry)) l))%list.
Proof.
  induction l as [|[key name] l IH]; intros acc; simpl.
  - now rewrite app_nil_r.
  - rewrite IH. destruct (keep key); simpl; [|reflexivity].
    now rewrite <- app_assoc.
Qed.

Lemma extract_safety_features_filter (decoded_data : Dict.t string) :
  extract_safety_features decoded_data =
  map snd (filter (fun entry => has_value (fst entry) decoded_data)
                  safety_mapping).
Proof.
  unfold extract_safety_features.
  now rewrite (append_loop_filter_pairs
                 (fun feature => has_value feature decoded_data)).
Qed.

Lemma filter_map_NoDup {K V} (keep : K * V -> bool) (l : list (K * V)) :
  NoDup (map snd l) -> NoDup (map snd (filter keep l)).
Proof.
  induction l as [|x l IH]; simpl; [auto|].
  intros H. inversion H as [|? ? Hnotin Hrest]; subst.
  destruct (keep x); simpl; [|auto].
  constructor; [|auto].
  intros Hin. apply Hnotin.
  apply in_map_iff in Hin as (y & Hy & Hiny).
  apply filter_In in Hiny as [Hiny _].
  apply in_map_iff. now exists y.
Qed.

Lemma safety_names_distinct : NoDup (map snd safety_mapping).
Proof.
  simpl.
  repeat (constructor;
          [simpl; intros H; decompose [or] H; try contradiction; discriminate|]).
  constructor.
Qed.

(** X12.  [extract_safety_features] lists the display name of a safety
    feature exactly when the decoded data have a value for it that is not
    empty; the names come in the order of [safety_mapping], each at most
    once. *)
Theorem extract_safety_features_spec (decoded_data : Dict.t string) :
  (forall feature display_name,
     In (feature, display_name) safety_mapping ->
     (In display_name (extract_safety_features decoded_data) <->
      has_value feature decoded_data = true)) /\
  NoDup (extract_safety_features decoded_data) /\
  extract_safety_features decoded_data =
    map snd (filter (fun entry => has_value (fst entry) decoded_data)
                    safety_mapping).
Proof.
  rewrite extract_safety_features_filter. split; [|split; [|reflexivity]].
  - intros feature display_name Hin. rewrite in_map_iff. split.
    + intros ([feature' display'] & Hname & Hkept). simpl in Hname. subst display'.
      apply filter_In in Hkept as [Hin' Hvalue]. simpl in Hvalue.
      assert (feature' = feature); [|now subst].
      pose proof safety_names_distinct as Hdistinct.
      clear Hvalue. revert Hin Hin' Hdistinct.
      generalize safety_mapping as l.
      induction l as [|[f d] l IH]; simpl; [contradiction|].
      intros [[= -> ->]|Hin] [[= ->]|Hin'] Hdistinct;
        inversion Hdistinct as [|? ? Hnotin Hrest]; subst.
      * reflexivity.
      * exfalso. apply Hnotin. apply in_map_iff.
        now exists (feature', display_name).
      * exfalso. apply Hnotin. apply in_map_iff.
        now exists (feature, display_name).
      * now apply IH.
    + intros Hvalue. exists (feature, display_name). split; [reflexivity|].
      apply filter_In. auto.
  - apply filter_map_NoDup, safety_names_distinct.
Qed.

Lemma extract_standard_features_filter (decoded_data : Dict.t string) :
  extract_standard_features decoded_data =
  filter (fun field => has_value field decoded_data) feature_fields.
Proof.
  unfold extract_standard_features.
  rewrite (append_loop_filter (fun field => field)
             (fun field => has_value field decoded_data) feature_fields []).
  simpl app. now rewrite map_id.
Qed.

(** X13.  [extract_standard_features] returns the fields of
    [feature_fields] for which the decoded data have a value that is not
    empty, in the order of that list, each at most once. *)
Theorem extract_standard_features_spec (decoded_data : Dict.t string) :
  (forall field,
     In field (extract_standard_features decoded_data) <->
     In field feature_fields /\ has_value field decoded_data = true) /\
  NoDup (extract_standard_features decoded_data) /\
  extract_standard_features decoded_data =
    filter (fun field => has_value field decoded_data) feature_fields.
Proof.
  rewrite extract_standard_features_filter. split; [|split; [|reflexivity]].
  - intros field. apply filter_In.
  - apply NoDup_filter. unfold feature_fields.
    repeat (constructor;
            [simpl; intros H; decompose [or] H; try contradiction; discriminate|]).
    constructor.
Qed.

End Reference.

(** ** The Flask routes *)

Section FlaskRoutes.

Import EnhancedEngineVINDecoder.




Variable nhtsa : nhtsa_service.

(** What [/search] answers to a request whose input is not empty. *)
Lemma universal_search_run
  (self : t) (payload : Dict.t string) :
  let search_input := PyStr.strip (Dict.get_or "search_input" "" payload) in
  search_input <> "" ->
  evalState (Web.universal_search nhtsa (Returned payload)) self =
  match evalState (search nhtsa search_input) self with
  | Raised e => Web.search_failed e
  | Returned result => jsonify (Web.convert_result result)
  end.
Proof.
  intros search_input Hne. unfold evalState at 1, Web.universal_search.
  cbv zeta. fold search_input.
  destruct (PyStr.falsy search_input) eqn:Hfalsy.
  - destruct search_input; [congruence | discriminate].
  - rewrite run_bind. fold (evalState (search nhtsa search_input) self).
    destruct (evalState (search nhtsa search_input) self); reflexivity.
Qed.


(** X16.  [/search] tells an NHTSA failure that is not caught by the
    decoder apart from a bad VIN: for a valid VIN on which the NHTSA call
    raises, it answers 200 with [success] false, the error "Server error"
    followed by the exception's message, and no suggestion. *)
Theorem universal_search_service_error
  (self : t) (payload : Dict.t string) (e : string) :
  let vin := PyStr.strip (Dict.get_or "search_input" "" payload) in
  EnhancedJapaneseCarVINDecoder.validate_vin vin = true ->
  decode_vin_nhtsa nhtsa vin = Raised e ->
  evalState (Web.universal_search nhtsa (Returned payload)) self =
  jsonify {| success := false;
             search_type := None;
             data := None;
             error := Some ("Server error: " ++ e);
             suggestion := None |}.
Proof.
  intros vin Hvalid Hraise.
  assert (Hlen : PyStr.len vin = 17) by now apply validate_vin_iff in Hvalid.
  assert (Hstrip : PyStr.strip vin = vin) by apply strip_idem.
  rewrite universal_search_run; fold vin;
    [|intros Hempty; rewrite Hempty in Hlen; discriminate].
  unfold evalState at 1. rewrite search_run. cbn [fst]. cbv zeta.
  rewrite Hstrip.
  assert (Hno : evalState (is_engine_code vin) self = false).
  { unfold evalState. now rewrite is_engine_code_run, Hstrip, Hlen. }
  rewrite Hno. unfold evalState.
  rewrite decode_vin_run, Hvalid, Hraise. reflexivity.
Qed.

(** What [/decode] answers. *)
Lemma decode_route_run (self : t) (payload : Dict.t string) :
  evalState (Web.decode_vin nhtsa (Returned payload)) self =
  match evalState (search nhtsa (PyStr.strip (Dict.get_or "vin" "" payload)))
          self with
  | Raised e => Web.decode_failed e
  | Returned result =>
      match success result, data result with
      | true, Some (VinData vehicle_info) =>
          jsonify {| db_success := true;
                     db_vehicle_info := Some vehicle_info;
                     db_error := None |}
      | _, _ =>
          jsonify {| db_success := false;
                     db_vehicle_info := None;
                     db_error :=
                       Some (Web.or_else (error result) "Could not decode VIN") |}
      end
  end.
Proof.
  unfold evalState at 1, Web.decode_vin. cbv zeta. rewrite run_bind.
  fold (evalState
          (search nhtsa (PyStr.strip (Dict.get_or "vin" "" payload))) self).
  destruct (evalState (search nhtsa _) self) as [result|e]; [|reflexivity].
  destruct (success result); [|reflexivity].
  destruct (data result) as [[found|vehicle_info]|]; reflexivity.
Qed.

(** X17.  [/decode] succeeds only with a vehicle: the trimmed input is
    then that vehicle's VIN and passes [validate_vin].  An input that
    [is_engine_code] accepts never succeeds there, found or not. *)
Theorem decode_route_success (self : t) (payload : Dict.t string) :
  let vin := PyStr.strip (Dict.get_or "vin" "" payload) in
  let response := body (evalState (Web.decode_vin nhtsa (Returned payload)) self) in
  (db_success response = true ->
   exists vehicle_info,
     db_vehicle_info response = Some vehicle_info /\
     EnhancedVehicleInfo.vin vehicle_info = vin /\
     EnhancedJapaneseCarVINDecoder.validate_vin vin = true) /\
  (evalState (is_engine_code vin) self = true ->
   db_success response = false /\ db_vehicle_info response = None).
Proof.
  intros vin response. subst response.
  rewrite decode_route_run. fold vin.
  assert (Hstrip : PyStr.strip vin = vin) by apply strip_idem.
  destruct (evalState (search nhtsa vin) self) as [result|e] eqn:Hsearch;
    [|cbn; split; [discriminate | auto]].
  search_cases Hsearch;
    cbn [success data engine_hit engine_miss vin_hit vin_miss
         body jsonify db_success db_vehicle_info];
    try (split; [discriminate | auto]).
  rewrite Hstrip in Hdecode.
  destruct (decode_vin_inv _ _ _ _ Hdecode)
    as (_ & _ & Hvalid & _ & _ & _ & Hvin & _).
  split.
  - intros _. exists vehicle. auto.
  - intros Hyes. rewrite Hyes in Hengine. discriminate.
Qed.

End FlaskRoutes.



Lemma universal_search_service_error_witness :
  evalState
    (Web.universal_search broken_service
       (Returned [("search_input", "4T1BE32K25U123456")]))
    EnhancedEngineVINDecoder.__init__
  = jsonify {| success := false;
               search_type := None;
               data := None;
               error := Some "Server error: 'list' object has no attribute 'get'";
               suggestion := None |}.
Proof.
  apply (universal_search_service_error broken_service
           EnhancedEngineVINDecoder.__init__
           [("search_input", "4T1BE32K25U123456")] "'list' object has no attribute 'get'");
    reflexivity.
Defined.

Lemma decode_route_success_witness :
  db_success
    (body (evalState (Web.decode_vin offline (Returned [("vin", "D16W7")]))
                     EnhancedEngineVINDecoder.__init__)) = false.
Proof.
  apply (proj2 (decode_route_success offline EnhancedEngineVINDecoder.__init__
                  [("vin", "D16W7")])).
  reflexivity.
Defined.

(** ** The raw HTTP handlers of enhanced_web_interface.py *)

Section RawHandlers.

Import EnhancedJapaneseCarVINDecoder.

(** A catalog of dictionaries gets through [parts_info_to_dict] only if
    all its categories are empty. *)
Lemma parts_of_keys_raises (categories : Dict.t (Dict.t PartInformation.t)) :
  (exists category parts, In (category, parts) categories /\ parts <> []) ->
  RawWeb.parts_of_keys categories = Raised RawWeb.no_part_name.
Proof.
  induction categories as [|[category parts] rest IH];
    intros (c & ps & Hin & Hne); [contradiction|].
  cbn [RawWeb.parts_of_keys].
  destruct parts as [|part parts]; [|reflexivity].
  destruct Hin as [[= <- <-]|Hin]; [contradiction|].
  rewrite IH; [reflexivity | eauto].
Qed.

(** Every detailed entry of the table of [__init__] starts with a
    category that has parts. *)
Lemma detailed_entries_have_parts (make model year engine : string)
  (categories : Dict.t (Dict.t PartInformation.t)) :
  evalState (get_enhanced_parts make model year engine) __init__
    = Detailed categories ->
  exists category parts, In (category, parts) categories /\ parts <> [].
Proof.
  unfold evalState. rewrite get_enhanced_parts_run. cbn [fst].
  unfold Dict.get_or.
  set (mk := PyStr.upper make). set (md := PyStr.upper model).
  cbn [enhanced_parts_database __init__ Dict.get].
  destruct (String.eqb mk "TOYOTA"); [|destruct (String.eqb mk "HONDA")];
    cbn [Dict.get];
    try (destruct (String.eqb md "CAMRY")); try (destruct (String.eqb md "CIVIC"));
    cbn [Dict.get];
    try (destruct (String.eqb year "2005"));
    cbn; try discriminate;
    intros [= <-]; do 2 eexists; (split; [left; reflexivity | discriminate]).
Qed.

Variable nhtsa : nhtsa_service.

Lemma handle_api_parts_run (self : t) (vin : string) :
  evalState (RawWeb.handle_api_parts nhtsa vin) self =
  match evalState (decode_vin nhtsa vin) self with
  | Raised e =>
      jsonify_with
        {| pb_success := false; pb_parts := None; pb_error := Some e |} 500
  | Returned (Some vehicle_info) =>
      match RawWeb.parts_info_to_dict
              (EnhancedVehicleInfo.parts_compatibility vehicle_info) with
      | Raised e =>
          jsonify_with
            {| pb_success := false; pb_parts := None; pb_error := Some e |} 500
      | Returned parts_dict =>
          jsonify_with
            {| pb_success := true;
               pb_parts := Some parts_dict;
               pb_error := None |} 200
      end
  | Returned None =>
      jsonify_with
        {| pb_success := false;
           pb_parts := None;
           pb_error := Some "Could not decode VIN" |} 200
  end.
Proof.
  unfold evalState at 1, RawWeb.handle_api_parts. rewrite run_bind.
  fold (evalState (decode_vin nhtsa vin) self). cbv zeta.
  destruct (evalState (decode_vin nhtsa vin) self) as [[vehicle_info|]|e];
    try reflexivity.
  destruct (RawWeb.parts_info_to_dict _); reflexivity.
Qed.

(** X18.  [/api/parts/<vin>] of the raw server serves the parts of a
    decoded vehicle when they are the fallback catalog (lists of parts).
    When they are a detailed entry (dictionaries of parts) with a part in
    it, the conversion walks the part keys as if they were parts and
    raises, and the answer is status 500 with the message of that error;
    with the table of [__init__] this happens for every detailed entry. *)
Theorem handle_api_parts_catalogs
  (self : t) (vin : string) (vehicle_info : EnhancedVehicleInfo.t) :
  evalState (decode_vin nhtsa vin) self = Returned (Some vehicle_info) ->
  let response := evalState (RawWeb.handle_api_parts nhtsa vin) self in
  let failure :=
    jsonify_with {| pb_success := false;
                    pb_parts := None;
                    pb_error := Some RawWeb.no_part_name |} 500 in
  (forall categories,
     EnhancedVehicleInfo.parts_compatibility vehicle_info = Basic categories ->
     response =
     jsonify_with
       {| pb_success := true;
          pb_parts :=
            Some (map (fun '(category, parts) =>
                         (category, map RawWeb.part_dict parts)) categories);
          pb_error := None |} 200) /\
  (forall categories,
     EnhancedVehicleInfo.parts_compatibility vehicle_info = Detailed categories ->
     (exists category parts, In (category, parts) categories /\ parts <> []) ->
     response = failure) /\
  (self = __init__ ->
   forall categories,
     EnhancedVehicleInfo.parts_compatibility vehicle_info = Detailed categories ->
     response = failure).
Proof.
  intros Hdecode response failure. subst response failure.
  rewrite handle_api_parts_run, Hdecode.
  assert (Hdetailed : forall categories,
            EnhancedVehicleInfo.parts_compatibility vehicle_info
              = Detailed categories ->
            (exists category parts,
                In (category, parts) categories /\ parts <> []) ->
            match RawWeb.parts_info_to_dict
                    (EnhancedVehicleInfo.parts_compatibility vehicle_info) with
            | Raised e =>
                jsonify_with
                  {| pb_success := false; pb_parts := None; pb_error := Some e |}
                  500
            | Returned parts_dict =>
                jsonify_with
                  {| pb_success := true;
                     pb_parts := Some parts_dict;
                     pb_error := None |} 200
            end
            = jsonify_with {| pb_success := false;
                              pb_parts := None;
                              pb_error := Some RawWeb.no_part_name |} 500).
  { intros categories -> Hparts. cbn [RawWeb.parts_info_to_dict].
    destruct categories as [|entry rest].
    - destruct Hparts as (c & ps & [] & _).
    - cbn [Dict.falsy]. now rewrite (parts_of_keys_raises _ Hparts). }
  split; [|split].
  - intros categories ->. cbn [RawWeb.parts_info_to_dict].
    destruct categories; reflexivity.
  - exact Hdetailed.
  - intros -> categories Hcatalog. apply (Hdetailed _ Hcatalog).
    destruct (decode_vin_inv nhtsa _ _ _ Hdecode)
      as (decoded_data & _ & _ & _ & _ & _ & _ & _ & _ & _ & _ & _ & Hparts).
    rewrite Hcatalog in Hparts. symmetry in Hparts.
    apply (detailed_entries_have_parts _ _ _ _ _ Hparts).
Qed.

Lemma handle_api_maintenance_run
  (reference : VinReference.t) (self : t) (vin : string) :
  evalState (RawWeb.handle_api_maintenance nhtsa reference vin) self =
  let unavailable :=
    jsonify_with
      {| mb_success := false;
         mb_maintenance := None;
         mb_error := Some "No maintenance schedule available" |} 200 in
  match evalState (decode_vin nhtsa vin) self with
  | Raised e =>
      jsonify_with
        {| mb_success := false; mb_maintenance := None; mb_error := Some e |} 500
  | Returned (Some vehicle_info) =>
      let maintenance_schedule :=
        VinReference.get_maintenance_schedule reference
          (EnhancedVehicleInfo.make vehicle_info)
          (EnhancedVehicleInfo.model vehicle_info)
          (EnhancedVehicleInfo.year vehicle_info) in
      if Dict.falsy maintenance_schedule then unavailable
      else
        jsonify_with
          {| mb_success := true;
             mb_maintenance :=
               Some (RawWeb.maintenance_to_dict maintenance_schedule);
             mb_error := None |} 200
  | Returned None => unavailable
  end.
Proof.
  unfold evalState at 1, RawWeb.handle_api_maintenance. rewrite run_bind.
  fold (evalState (decode_vin nhtsa vin) self). cbv zeta.
  destruct (evalState (decode_vin nhtsa vin) self) as [[vehicle_info|]|e];
    try reflexivity.
  destruct (Dict.falsy _); reflexivity.
Qed.

(** The maintenance table of [__init__] has a schedule for the 2005
    Toyota Camry and for nothing else. *)
Lemma maintenance_known (make model year : string) :
  Dict.falsy
    (VinReference.get_maintenance_schedule VinReference.__init__ make model year)
    = false <->
  PyStr.upper make = "TOYOTA" /\ PyStr.upper model = "CAMRY" /\ year = "2005".
Proof.
  unfold VinReference.get_maintenance_schedule, Dict.get_or.
  cbn [VinReference.maintenance_schedules VinReference.__init__ Dict.get].
  destruct (String.eqb_spec (PyStr.upper make) "TOYOTA") as [->|Hmake];
    [|cbn; split; [discriminate | tauto]].
  cbn [Dict.get].
  destruct (String.eqb_spec (PyStr.upper model) "CAMRY") as [->|Hmodel];
    [|cbn; split; [discriminate | tauto]].
  cbn [Dict.get].
  destruct (String.eqb_spec year "2005") as [->|Hyear];
    [|cbn; split; [discriminate | tauto]].
  cbn. tauto.
Qed.

(** X19.  [/api/maintenance/<vin>] of the raw server succeeds exactly for
    a decoded vehicle that is a 2005 Toyota Camry, in any letter case of
    make and model; every other decoded vehicle, and every VIN that does
    not decode, gets status 200 with "No maintenance schedule available".
    Status 500 is the answer exactly when decoding raised. *)
Theorem handle_api_maintenance_known (self : t) (vin : string) :
  let response :=
    evalState (RawWeb.handle_api_maintenance nhtsa VinReference.__init__ vin)
              self in
  (mb_success (body response) = true <->
   exists vehicle_info,
     evalState (decode_vin nhtsa vin) self = Returned (Some vehicle_info) /\
     PyStr.upper (EnhancedVehicleInfo.make vehicle_info) = "TOYOTA" /\
     PyStr.upper (EnhancedVehicleInfo.model vehicle_info) = "CAMRY" /\
     EnhancedVehicleInfo.year vehicle_info = "2005") /\
  (mb_success (body response) = false ->
   (forall e, evalState (decode_vin nhtsa vin) self <> Raised e) ->
   status response = 200 /\
   mb_error (body response) = Some "No maintenance schedule available") /\
  (status response = 500 <->
   exists e, evalState (decode_vin nhtsa vin) self = Raised e).
Proof.
  intros response. subst response.
  rewrite handle_api_maintenance_run. cbv zeta.
  destruct (evalState (decode_vin nhtsa vin) self) as [[vehicle_info|]|e].
  - pose proof (maintenance_known
                  (EnhancedVehicleInfo.make vehicle_info)
                  (EnhancedVehicleInfo.model vehicle_info)
                  (EnhancedVehicleInfo.year vehicle_info)) as Hknown.
    destruct (Dict.falsy _); cbn [body status jsonify_with mb_success mb_error].
    + split; [|split].
      * split; [discriminate|].
        intros (v & [= <-] & Hv). apply Hknown in Hv. discriminate.
      * auto.
      * split; [discriminate | intros [e H]; discriminate].
    + split; [|split].
      * split; [|reflexivity]. intros _. exists vehicle_info.
        split; [reflexivity|]. now apply Hknown.
      * discriminate.
      * split; [discriminate | intros [e H]; discriminate].
  - cbn. split; [|split].
    + split; [discriminate | intros (v & H & _); discriminate].
    + auto.
    + split; [discriminate | intros [e H]; discriminate].
  - cbn. split; [|split].
    + split; [discriminate | intros (v & H & _); discriminate].
    + intros _ H. now elim (H e).
    + split; eauto.
Qed.

End RawHandlers.

Lemma handle_api_parts_catalogs_witness :
  status (evalState (RawWeb.handle_api_parts camry_service "4T1BE32K25U123456")
                    EnhancedJapaneseCarVINDecoder.__init__) = 500.
Proof.
  destruct (evalState
              (EnhancedJapaneseCarVINDecoder.decode_vin camry_service
                 "4T1BE32K25U123456")
              EnhancedJapaneseCarVINDecoder.__init__)
    as [[vehicle_info|]|e] eqn:E; [|discriminate E ..].
  destruct (EnhancedVehicleInfo.parts_compatibility vehicle_info)
    as [categories|categories] eqn:P;
    [|exfalso; vm_compute in E; injection E as <-; discriminate P].
  destruct (handle_api_parts_catalogs camry_service _ _ _ E) as (_ & _ & Hinit).
  rewrite (Hinit eq_refl categories P). reflexivity.
Defined.
